(** * The [switch_port] command of the Omada command line client

    A shallow embedding of [tplink_omada_client/cli/command_switch_port.py]
    and the properties of its port toggle procedure.

    The command talks to an external controller through a site client.  The
    embedding keeps that collaborator abstract: a site client is a record of
    handlers over an arbitrary world [W], each of which may return a value or
    raise, and may change the world either way.  The procedure itself is
    written in a state-and-exception monad that threads the world and logs
    every call, print and sleep, in program order. *)

From Stdlib Require Import ZArith String List DecimalString.
From stdpp Require Import base option list strings gmap fin_maps.

Local Open Scope string_scope.
Local Open Scope Z_scope.

(** ** Data model *)

(** Values found in the raw field map of a port and in request payloads. *)
#[local] Set Warnings "-register-all".
Inductive json : Type :=
| JNull
| JBool (b : bool)
| JInt (z : Z)
| JStr (s : string)
| JList (l : list json)
| JDict (l : list (string * json)).

#[local] Set Warnings "register-all".

(** A Python [dict] with string keys. *)
Abbreviation pydict := (gmap string json).

(** A member of one of the client's integer enumerations; the command only
    reads its [.value]. *)
Record EnumMember := { value : Z }.

(** [OmadaSwitchPortDetails]: the attributes the command reads, and the raw
    field map [_data].  The class itself belongs to the client library;
    reading an attribute of port details that the client returned is taken
    to yield a value. *)
Record OmadaSwitchPortDetails := {
  operation : string;
  link_speed : EnumMember;
  duplex : EnumMember;
  eth_802_1x_control : EnumMember;
  poe_mode : EnumMember;
  bandwidth_limit_mode : EnumMember;
  lldp_med_enabled : bool;
  spanning_tree_enabled : bool;
  loopback_detect_enabled : bool;
  port_isolation_enabled : bool;
  topology_notify_enabled : bool;
  has_schedule : bool;
  profile_id : string;
  is_disabled : bool;
  _data : pydict
}.

(** An entry of [get_port_profiles]; [port_profile_id] is its [profile_id]
    attribute. *)
Record PortProfile := {
  name : string;
  port_profile_id : string
}.

(** A raised Python exception: its class and its message. *)
Record exn := PyExn { exn_class : string; exn_msg : string }.

Definition ValueError (msg : string) : exn := PyExn "ValueError" msg.

Inductive result (A : Type) : Type :=
| Ok (a : A)
| Raise (e : exn).
Arguments Ok {A} a.
Arguments Raise {A} e.

(** [str(port)] for a Python [int]. *)
Definition str_of_int (z : Z) : string := NilZero.string_of_int (Z.to_int z).

(** ** [_preserve_port_settings] *)

Definition _preserve_port_settings (port_details : OmadaSwitchPortDetails) : pydict :=
  let payload : pydict := list_to_map [
    ("operation", JStr (operation port_details));
    ("linkSpeed", JInt (value (link_speed port_details)));
    ("duplex", JInt (value (duplex port_details)));
    ("dot1x", JInt (value (eth_802_1x_control port_details)));
    ("poe", JInt (value (poe_mode port_details)));
    ("bandWidthCtrlType", JInt (value (bandwidth_limit_mode port_details)));
    ("lldpMedEnable", JBool (lldp_med_enabled port_details));
    ("spanningTreeEnable", JBool (spanning_tree_enabled port_details));
    ("loopbackDetectEnable", JBool (loopback_detect_enabled port_details));
    ("portIsolationEnable", JBool (port_isolation_enabled port_details))
  ] in
  let payload :=
    match _data port_details !! "topoNotifyEnable" with
    | Some _ => <["topoNotifyEnable" := JBool (topology_notify_enabled port_details)]> payload
    | None => payload
    end in
  let payload :=
    match _data port_details !! "eeeEnable" with
    | Some v => <["eeeEnable" := v]> payload
    | None => payload
    end in
  let payload :=
    match _data port_details !! "flowControlEnable" with
    | Some v => <["flowControlEnable" := v]> payload
    | None => payload
    end in
  let payload :=
    match _data port_details !! "fastLeaveEnable" with
    | Some v => <["fastLeaveEnable" := v]> payload
    | None => payload
    end in
  payload.

(** The settings of a port as a request ought to carry them, following the
    specification's snapshot: the ten settings every port has, and each of
    the four optional ones when the raw data has it. *)
Definition current_setting (port_details : OmadaSwitchPortDetails)
    (key : string) : option json :=
  if decide (key = "fastLeaveEnable") then
    _data port_details !! "fastLeaveEnable"
  else if decide (key = "flowControlEnable") then
    _data port_details !! "flowControlEnable"
  else if decide (key = "eeeEnable") then
    _data port_details !! "eeeEnable"
  else if decide (key = "topoNotifyEnable") then
    match _data port_details !! "topoNotifyEnable" with
    | Some _ => Some (JBool (topology_notify_enabled port_details))
    | None => None
    end
  else if decide (key = "operation") then
    Some (JStr (operation port_details))
  else if decide (key = "linkSpeed") then
    Some (JInt (value (link_speed port_details)))
  else if decide (key = "duplex") then
    Some (JInt (value (duplex port_details)))
  else if decide (key = "dot1x") then
    Some (JInt (value (eth_802_1x_control port_details)))
  else if decide (key = "poe") then
    Some (JInt (value (poe_mode port_details)))
  else if decide (key = "bandWidthCtrlType") then
    Some (JInt (value (bandwidth_limit_mode port_details)))
  else if decide (key = "lldpMedEnable") then
    Some (JBool (lldp_med_enabled port_details))
  else if decide (key = "spanningTreeEnable") then
    Some (JBool (spanning_tree_enabled port_details))
  else if decide (key = "loopbackDetectEnable") then
    Some (JBool (loopback_detect_enabled port_details))
  else if decide (key = "portIsolationEnable") then
    Some (JBool (port_isolation_enabled port_details))
  else None.

(** The keys [_preserve_port_settings] always writes, and the keys it writes
    when the raw data has them. *)
Definition required_settings : list string :=
  [ "operation"; "linkSpeed"; "duplex"; "dot1x"; "poe"; "bandWidthCtrlType";
    "lldpMedEnable"; "spanningTreeEnable"; "loopbackDetectEnable";
    "portIsolationEnable" ].

Definition optional_settings : list string :=
  [ "topoNotifyEnable"; "eeeEnable"; "flowControlEnable"; "fastLeaveEnable" ].

(** The first profile named exactly ["Disable"], if there is one. *)
Definition disable_profile (profiles : list PortProfile) : option PortProfile :=
  List.find (fun profile => String.eqb (name profile) "Disable") profiles.

(** The command line arguments, as [argparse] hands them over. *)
Record Args := {
  arg_target : string;
  arg_mac : string;
  arg_port : string;
  arg_enable : bool;
  arg_disable : bool;
  arg_apply_schedule : bool;
  arg_dump : bool
}.

(** ** The world, the log and the monad *)

Section Procedure.

(** [W] is the state of everything outside the command: the controller,
    the network, the session.  [OmadaDevice] is the client's device
    object, [ControllerConfig] the resolved target configuration. *)
Context {W OmadaDevice ControllerConfig : Type}.

(** Everything the command does that is visible from outside. *)
Inductive call : Type :=
| get_switch_port_call (device : OmadaDevice) (port : Z)
| update_switch_port_call (device : OmadaDevice) (port : Z)
    (profile : option string) (overrides : option pydict)
| get_port_profiles_call
| get_device_call (mac : string)
| get_site_client_call (site_name : string)
| get_target_argument_call (args : Args)
| get_target_config_call (controller : string)
| to_omada_connection_call (config : ControllerConfig)
| connection_enter_call
| connection_exit_call
| get_device_mac_call (mac_or_name : string)
| dump_raw_data_call (args : Args) (port_details : OmadaSwitchPortDetails)
| sleep_call (seconds : Z)
| print_call (line : string).

(** A log entry: the call, and the exception it raised if it did. *)
Record entry := { ev : call; raised : option exn }.

(** A handler of the environment: a value or an exception, and the world
    it leaves behind in either case. *)
Definition ext (A : Type) : Type := W -> result A * W.

(** What a computation of the command amounts to: its result, the world it
    leaves, and the entries it logged, oldest first. *)
Record run (A : Type) := Run {
  res : result A;
  final : W;
  emitted : list entry
}.
Arguments Run {A} res final emitted.
Arguments res {A} r.
Arguments final {A} r.
Arguments emitted {A} r.

Definition M (A : Type) : Type := W -> run A.

Definition ret {A} (a : A) : M A := fun w => Run (Ok a) w [].

Definition throw {A} (e : exn) : M A := fun w => Run (Raise e) w [].

Definition lift {A} (r : result A) : M A := fun w => Run r w [].

Definition bind {A B} (m : M A) (k : A -> M B) : M B :=
  fun w =>
    let r1 := m w in
    match res r1 with
    | Ok a =>
        let r2 := k a (final r1) in
        Run (res r2) (final r2) (emitted r1 ++ emitted r2)
    | Raise e => Run (Raise e) (final r1) (emitted r1)
    end.

Definition outcome {A} (r : result A) : option exn :=
  match r with
  | Ok _ => None
  | Raise e => Some e
  end.

(** [await h(...)]: run the handler on the world and log the call. *)
Definition invoke {A} (c : call) (h : ext A) : M A :=
  fun w =>
    let (r, w') := h w in
    Run r w' [{| ev := c; raised := outcome r |}].

Definition print (line : string) : M unit :=
  fun w => Run (Ok tt) w [{| ev := print_call line; raised := None |}].

(** [await asyncio.sleep(seconds)]. *)
Definition sleep (seconds : Z) : M unit :=
  fun w => Run (Ok tt) w [{| ev := sleep_call seconds; raised := None |}].

(** [try: body finally: cleanup exc]: the cleanup runs on both exits, is
    told the exception in flight, and an exception of its own replaces
    that one. *)
Definition finally {A} (body : M A) (cleanup : option exn -> M unit) : M A :=
  fun w =>
    let r1 := body w in
    let r2 := cleanup (outcome (res r1)) (final r1) in
    Run (match res r2 with
         | Ok _ => res r1
         | Raise e => Raise e
         end)
        (final r2) (emitted r1 ++ emitted r2).

(** The sequencing notations [x ← m; k] and [m;; k] are stdpp's. *)
#[local] Instance M_ret : MRet M := @ret.
#[local] Instance M_bind : MBind M := fun A B k m => bind m k.

(** ** The collaborators *)

(** The site client: the four methods the command calls. *)
Record SiteClient := {
  get_switch_port : OmadaDevice -> Z -> ext OmadaSwitchPortDetails;
  update_switch_port :
    OmadaDevice -> Z -> option string -> option pydict -> ext unit;
  get_port_profiles : ext (list PortProfile);
  get_device : string -> ext OmadaDevice
}.

Record OmadaClient := {
  get_site_client : string -> ext SiteClient
}.

(** Modelled from the spec: the object [to_omada_connection] returns, used
    by [async with].  The connection is scoped to the invocation and
    closed on exit, and failures propagate uncaught: entering yields the
    client, leaving is told the exception in flight and does not swallow
    it. *)
Record Connection := {
  aenter : ext OmadaClient;
  aexit : option exn -> ext unit
}.

(** The helpers of [cli/config.py] and [cli/util.py], and the builtin
    [int], which are not part of this module. *)
Record Host := {
  get_target_argument : Args -> ext string;
  get_target_config : string -> ext ControllerConfig;
  to_omada_connection : ControllerConfig -> ext Connection;
  site : ControllerConfig -> string;
  get_device_mac : SiteClient -> string -> ext string;
  dump_raw_data : Args -> OmadaSwitchPortDetails -> ext unit;
  py_int : string -> result Z
}.

(** ** [_get_disable_profile_id] *)

(** The [for] loop over the profiles, and the [raise] after it. *)
Fixpoint find_disable_profile (profiles : list PortProfile) : M string :=
  match profiles with
  | [] => throw (ValueError "Could not find Disable profile")
  | profile :: rest =>
      if String.eqb (name profile) "Disable"
      then ret (port_profile_id profile)
      else find_disable_profile rest
  end.

Definition _get_disable_profile_id (site_client : SiteClient) : M string :=
  profiles ← invoke get_port_profiles_call (get_port_profiles site_client);
  find_disable_profile profiles.

(** ** [_enable_port_via_schedule] *)

Definition _enable_port_via_schedule
    (site_client : SiteClient) (device : OmadaDevice) (port : Z) : M bool :=
  port_details ← invoke (get_switch_port_call device port)
                    (get_switch_port site_client device port);
  let original_profile := profile_id port_details in
  if has_schedule port_details then
    let payload := _preserve_port_settings port_details in
    let payload := <["scheduleEnable" := JBool false]> payload in
    invoke (update_switch_port_call device port None (Some payload))
      (update_switch_port site_client device port None (Some payload));;
    print ("Port " ++ str_of_int port ++ " enabled by disabling schedule");;
    ret true
  else
    disable_profile_id ← _get_disable_profile_id site_client;
    invoke (update_switch_port_call device port (Some disable_profile_id) None)
      (update_switch_port site_client device port (Some disable_profile_id) None);;
    print ("Port " ++ str_of_int port ++ " temporarily disabled");;
    sleep 1;;
    invoke (update_switch_port_call device port (Some original_profile) None)
      (update_switch_port site_client device port (Some original_profile) None);;
    print ("Port " ++ str_of_int port ++ " re-enabled with original profile");;
    refreshed_port ← invoke (get_switch_port_call device port)
                        (get_switch_port site_client device port);
    print ("Port " ++ str_of_int port ++ " status: "
           ++ (if negb (is_disabled refreshed_port) then "enabled" else "disabled"));;
    ret true.

(** ** [_disable_port_via_schedule] *)

Definition _disable_port_via_schedule
    (site_client : SiteClient) (device : OmadaDevice) (port : Z)
    (apply_schedule : bool) : M bool :=
  port_details ← invoke (get_switch_port_call device port)
                    (get_switch_port site_client device port);
  if has_schedule port_details && apply_schedule then
    let payload := _preserve_port_settings port_details in
    let payload := <["scheduleEnable" := JBool true]> payload in
    invoke (update_switch_port_call device port None (Some payload))
      (update_switch_port site_client device port None (Some payload));;
    print ("Port " ++ str_of_int port ++ " disabled by enabling schedule");;
    ret true
  else
    disable_profile_id ← _get_disable_profile_id site_client;
    invoke (update_switch_port_call device port (Some disable_profile_id) None)
      (update_switch_port site_client device port (Some disable_profile_id) None);;
    print ("Port " ++ str_of_int port ++ " disabled via profile");;
    ret true.

(** ** [command_switch_port] *)

Definition command_switch_port (host : Host) (args : Args) : M Z :=
  controller ← invoke (get_target_argument_call args)
                  (get_target_argument host args);
  config ← invoke (get_target_config_call controller)
              (get_target_config host controller);
  connection ← invoke (to_omada_connection_call config)
                  (to_omada_connection host config);
  client ← invoke connection_enter_call (aenter connection);
  finally
    (site_client ← invoke (get_site_client_call (site host config))
                      (get_site_client client (site host config));
     mac ← invoke (get_device_mac_call (arg_mac args))
              (get_device_mac host site_client (arg_mac args));
     device ← invoke (get_device_call mac) (get_device site_client mac);
     port ← lift (py_int host (arg_port args));
     (if arg_enable args then
        _enable_port_via_schedule site_client device port;; ret tt
      else if arg_disable args then
        _disable_port_via_schedule site_client device port
          (arg_apply_schedule args);; ret tt
      else ret tt);;
     (if arg_dump args then
        port_details ← invoke (get_switch_port_call device port)
                          (get_switch_port site_client device port);
        invoke (dump_raw_data_call args port_details)
          (dump_raw_data host args port_details)
      else ret tt);;
     ret 0)
    (fun exc => invoke connection_exit_call (aexit connection exc)).

(** A run whose log comes after the entries [t]. *)
Definition prepend {A} (t : list entry) (r : run A) : run A :=
  Run (res r) (final r) (t ++ emitted r).

(** ** Reading the log *)

Definition is_update (c : call) : bool :=
  match c with
  | update_switch_port_call _ _ _ _ => true
  | _ => false
  end.

Definition is_port_read (c : call) : bool :=
  match c with
  | get_switch_port_call _ _ => true
  | _ => false
  end.

Definition is_profile_lookup (c : call) : bool :=
  match c with
  | get_port_profiles_call => true
  | _ => false
  end.

(** The mutating calls of a log, in order. *)
Definition mutating_calls (t : list entry) : list call :=
  List.filter is_update (map ev t).

Definition port_reads (t : list entry) : list call :=
  List.filter is_port_read (map ev t).

Definition profile_lookups (t : list entry) : list call :=
  List.filter is_profile_lookup (map ev t).

Definition entry_ok (c : call) : entry := {| ev := c; raised := None |}.

(** A result and a log are fail-stop when a call that raised is the last
    entry of the log and its exception is the result. *)
Definition fail_stop {A} (r : result A) (t : list entry) : Prop :=
  forall before c e after,
    t = (before ++ {| ev := c; raised := Some e |} :: after)%list ->
    after = [] /\ r = Raise e.

(** A computation propagates failures when every run of it is fail-stop. *)
Definition propagates {A} (m : M A) : Prop :=
  forall w, fail_stop (res (m w)) (emitted (m w)).

(** The mutating calls of a log that returned, in order: what the
    controller was made to apply. *)
Definition applied_updates (t : list entry) : list call :=
  mutating_calls
    (List.filter (fun x => match raised x with None => true | Some _ => false end) t).

(** The [if]/[elif] of [command_switch_port] that picks the operation. *)
Definition toggle_branch (site_client : SiteClient) (device : OmadaDevice)
    (port : Z) (args : Args) : M unit :=
  if arg_enable args then
    _enable_port_via_schedule site_client device port;; ret tt
  else if arg_disable args then
    _disable_port_via_schedule site_client device port
      (arg_apply_schedule args);; ret tt
  else ret tt.

(** The body of the [async with] block from the branch on: the branch, the
    optional dump, and [return 0]. *)
Definition toggle_and_dump (host : Host) (site_client : SiteClient)
    (device : OmadaDevice) (port : Z) (args : Args) : M Z :=
  toggle_branch site_client device port args;;
  (if arg_dump args then
     port_details ← invoke (get_switch_port_call device port)
                       (get_switch_port site_client device port);
     invoke (dump_raw_data_call args port_details)
       (dump_raw_data host args port_details)
   else ret tt);;
  ret 0.

(** A computation returns only values that satisfy [P]. *)
Definition returns_only {A} (P : A -> Prop) (m : M A) : Prop :=
  forall w a, res (m w) = Ok a -> P a.

(** The steps of [command_switch_port] before the branch all return:
    target, configuration, connection, site client, MAC, device, port. *)
Definition reaches_branch (host : Host) (args : Args) (w0 : W)
    (connection : Connection) (site_client : SiteClient)
    (device : OmadaDevice) (port : Z) (w7 : W) (t : list entry) : Prop :=
  exists controller config client mac w1 w2 w3 w4 w5 w6,
    get_target_argument host args w0 = (Ok controller, w1) /\
    get_target_config host controller w1 = (Ok config, w2) /\
    to_omada_connection host config w2 = (Ok connection, w3) /\
    aenter connection w3 = (Ok client, w4) /\
    get_site_client client (site host config) w4 = (Ok site_client, w5) /\
    get_device_mac host site_client (arg_mac args) w5 = (Ok mac, w6) /\
    get_device site_client mac w6 = (Ok device, w7) /\
    py_int host (arg_port args) = Ok port /\
    t = [ entry_ok (get_target_argument_call args);
          entry_ok (get_target_config_call controller);
          entry_ok (to_omada_connection_call config);
          entry_ok connection_enter_call;
          entry_ok (get_site_client_call (site host config));
          entry_ok (get_device_mac_call (arg_mac args));
          entry_ok (get_device_call mac) ].

(** Every entry a computation logs, in every run, is a call satisfying [P]. *)
Definition log_all {A} (P : call -> Prop) (m : M A) : Prop :=
  forall w, Forall (fun x => P (ev x)) (emitted (m w)).

(** A call that concerns a switch port concerns the given one, and an update
    carries either a profile or overrides, not both and not neither. *)
Definition addresses (device : OmadaDevice) (port : Z) (c : call) : Prop :=
  match c with
  | get_switch_port_call d p => d = device /\ p = port
  | update_switch_port_call d p profile overrides =>
      d = device /\ p = port /\
      ((is_Some profile /\ overrides = None) \/
       (profile = None /\ is_Some overrides))
  | _ => True
  end.

(** A call that does not wait. *)
Definition not_sleep (c : call) : Prop :=
  match c with
  | sleep_call _ => False
  | _ => True
  end.

Definition is_connection_exit (c : call) : bool :=
  match c with
  | connection_exit_call => true
  | _ => false
  end.

Definition connection_exits (t : list entry) : list call :=
  List.filter is_connection_exit (map ev t).

(** The log shows that the connection was entered. *)
Definition entered (t : list entry) : bool :=
  existsb (fun x => match ev x, raised x with
                    | connection_enter_call, None => true
                    | _, _ => false
                    end) t.

End Procedure.

Arguments Run {W OmadaDevice ControllerConfig A} res final emitted.
Arguments res {W OmadaDevice ControllerConfig A} r.
Arguments final {W OmadaDevice ControllerConfig A} r.
Arguments emitted {W OmadaDevice ControllerConfig A} r.

(** ** A test double of the controller

    A small controller with one port, used to run the procedure on concrete
    inputs.  The link to it carries [calls_left] more site client calls and
    then drops. *)

Record Controller := {
  port_profile : string;
  port_has_schedule : bool;
  schedule_enabled : bool;
  site_profiles : list PortProfile;
  calls_left : nat
}.

Definition port_view (c : Controller) : OmadaSwitchPortDetails := {|
  operation := "switching";
  link_speed := {| value := 0 |};
  duplex := {| value := 0 |};
  eth_802_1x_control := {| value := 2 |};
  poe_mode := {| value := 1 |};
  bandwidth_limit_mode := {| value := 0 |};
  lldp_med_enabled := true;
  spanning_tree_enabled := false;
  loopback_detect_enabled := true;
  port_isolation_enabled := false;
  topology_notify_enabled := false;
  has_schedule := port_has_schedule c;
  profile_id := port_profile c;
  is_disabled := String.eqb (port_profile c) "p-1";
  _data := {[ "topoNotifyEnable" := JBool false; "eeeEnable" := JBool true ]}
|}.

Definition link_down : exn := PyExn "ConnectionError" "link down".

Definition over_link {A} (f : Controller -> result A * Controller)
    (c : Controller) : result A * Controller :=
  match calls_left c with
  | O => (Raise link_down, c)
  | S n =>
      f {| port_profile := port_profile c;
           port_has_schedule := port_has_schedule c;
           schedule_enabled := schedule_enabled c;
           site_profiles := site_profiles c;
           calls_left := n |}
  end.

Definition apply_update (profile : option string) (overrides : option pydict)
    (c : Controller) : Controller :=
  {| port_profile := default (port_profile c) profile;
     port_has_schedule := port_has_schedule c;
     schedule_enabled :=
       match overrides ≫= (λ payload, payload !! "scheduleEnable") with
       | Some (JBool b) => b
       | _ => schedule_enabled c
       end;
     site_profiles := site_profiles c;
     calls_left := calls_left c |}.

Definition test_site_client : @SiteClient Controller string := {|
  get_switch_port := fun _ _ => over_link (fun c => (Ok (port_view c), c));
  update_switch_port := fun _ _ profile overrides =>
    over_link (fun c => (Ok tt, apply_update profile overrides c));
  get_port_profiles := over_link (fun c => (Ok (site_profiles c), c));
  get_device := fun mac => over_link (fun c => (Ok mac, c))
|}.

Definition test_connection : @Connection Controller string := {|
  aenter := fun c => (Ok {| get_site_client := fun _ c => (Ok test_site_client, c) |}, c);
  aexit := fun _ c => (Ok tt, c)
|}.

Definition test_host : @Host Controller string string := {|
  get_target_argument := fun args c => (Ok (arg_target args), c);
  get_target_config := fun controller c => (Ok controller, c);
  to_omada_connection := fun _ c => (Ok test_connection, c);
  site := fun config => config;
  get_device_mac := fun _ mac_or_name c => (Ok mac_or_name, c);
  dump_raw_data := fun _ _ c => (Ok tt, c);
  py_int := fun s =>
    match NilZero.int_of_string s with
    | Some i => Ok (Z.of_int i)
    | None => Raise (ValueError "invalid literal for int()")
    end
|}.

Definition controller_with (profiles : list PortProfile) (schedule : bool)
    (link : nat) : Controller := {|
  port_profile := "p-default";
  port_has_schedule := schedule;
  schedule_enabled := schedule;
  site_profiles := profiles;
  calls_left := link
|}.

Definition test_controller (schedule : bool) (link : nat) : Controller :=
  controller_with [ {| name := "All"; port_profile_id := "p-0" |};
                    {| name := "Disable"; port_profile_id := "p-1" |} ]
    schedule link.

(** A site whose profiles do not include "Disable". *)
Definition controller_without_disable (link : nat) : Controller :=
  controller_with [ {| name := "All"; port_profile_id := "p-0" |};
                    {| name := "disable"; port_profile_id := "p-9" |} ]
    false link.

(** A site with two profiles named "Disable". *)
Definition controller_two_disable (link : nat) : Controller :=
  controller_with [ {| name := "All"; port_profile_id := "p-0" |};
                    {| name := "Disable"; port_profile_id := "p-1" |};
                    {| name := "Disable"; port_profile_id := "p-2" |} ]
    false link.

Definition test_device : string := "AA:BB:CC:DD:EE:FF".

(** The payload of the test double's port with the schedule flag set. *)
Definition test_payload (flag : bool) : pydict :=
  <["scheduleEnable" := JBool flag]>
    (_preserve_port_settings (port_view (test_controller true 0))).

Definition enable_on_test_double : Controller -> run bool :=
  _enable_port_via_schedule (ControllerConfig := string)
    test_site_client test_device 3.

Definition disable_on_test_double (apply_schedule : bool)
    : Controller -> run bool :=
  _disable_port_via_schedule (ControllerConfig := string)
    test_site_client test_device 3 apply_schedule.

Definition command_on_test_double (args : Args) : Controller -> run Z :=
  command_switch_port test_host args.

Definition test_args (enable apply_schedule dump : bool) : Args := {|
  arg_target := "home";
  arg_mac := "AA:BB:CC:DD:EE:FF";
  arg_port := "3";
  arg_enable := enable;
  arg_disable := negb enable;
  arg_apply_schedule := apply_schedule;
  arg_dump := dump
|}.


Definition with_dump (dump : bool) (args : Args) : Args := {|
  arg_target := arg_target args;
  arg_mac := arg_mac args;
  arg_port := arg_port args;
  arg_enable := arg_enable args;
  arg_disable := arg_disable args;
  arg_apply_schedule := arg_apply_schedule args;
  arg_dump := dump
|}.

(** Arguments whose port is not a number. *)
Definition unparsable_port_args : Args := {|
  arg_target := "home";
  arg_mac := test_device;
  arg_port := "three";
  arg_enable := true;
  arg_disable := false;
  arg_apply_schedule := false;
  arg_dump := false
|}.

(** Arguments with neither [--enable] nor [--disable]. *)
Definition no_flag_args : Args := {|
  arg_target := "home";
  arg_mac := test_device;
  arg_port := "3";
  arg_enable := false;
  arg_disable := false;
  arg_apply_schedule := true;
  arg_dump := true
|}.

(** The port of the test double already on the "Disable" profile. *)
Definition controller_on_disable (link : nat) : Controller := {|
  port_profile := "p-1";
  port_has_schedule := false;
  schedule_enabled := false;
  site_profiles := [ {| name := "All"; port_profile_id := "p-0" |};
                     {| name := "Disable"; port_profile_id := "p-1" |} ];
  calls_left := link
|}.

(** The reading of the exit code that asks only for the branch to return:
    whenever the steps before the branch return and the enable or the
    disable branch returns, the command returns 0. *)
Definition exit_zero_once_branch_returns (W OmadaDevice ControllerConfig : Type)
    : Prop :=
  forall (host : @Host W OmadaDevice ControllerConfig) args w0
         connection site_client device port w7 t w8 tb,
    reaches_branch host args w0 connection site_client device port w7 t ->
    arg_enable args = true \/ arg_disable args = true ->
    toggle_branch (ControllerConfig := ControllerConfig)
      site_client device port args w7 = Run (Ok tt) w8 tb ->
    res (command_switch_port host args w0) = Ok 0.

(** * Properties *)

Section Properties.

Context {W OmadaDevice ControllerConfig : Type}.

Local Abbreviation site_client_t := (@SiteClient W OmadaDevice).
Local Abbreviation host_t := (@Host W OmadaDevice ControllerConfig).
Local Abbreviation comp := (@M W OmadaDevice ControllerConfig).
Local Abbreviation log_t := (list (@entry OmadaDevice ControllerConfig)).

Implicit Types (site_client : site_client_t) (device : OmadaDevice)
  (port : Z) (w : W) (port_details : OmadaSwitchPortDetails)
  (profiles : list PortProfile) (t : log_t)
  (c : @call OmadaDevice ControllerConfig) (host : host_t) (args : Args).

(** ** Equations of the monad *)

Lemma prepend_run {A} t (r : result A) w t' :
  prepend t (Run r w t') = Run r w (t ++ t').
Proof. reflexivity. Qed.

Lemma prepend_nil {A} (r : @run W OmadaDevice ControllerConfig A) :
  prepend [] r = r.
Proof. destruct r; reflexivity. Qed.

Lemma bind_ret {A B} (a : A) (k : A -> comp B) w :
  bind (ret a) k w = k a w.
Proof. unfold bind, ret; simpl. apply (prepend_nil (k a w)). Qed.

Lemma bind_throw {A B} (e : exn) (k : A -> comp B) w :
  bind (throw e) k w = Run (Raise e) w [].
Proof. reflexivity. Qed.

Lemma bind_lift_ok {A B} (a : A) (k : A -> comp B) w :
  bind (lift (Ok a)) k w = k a w.
Proof. apply bind_ret. Qed.

Lemma bind_lift_raise {A B} (e : exn) (k : A -> comp B) w :
  bind (lift (Raise e)) k w = Run (Raise e) w [].
Proof. reflexivity. Qed.

Lemma bind_assoc {A B C} (m : comp A) (k : A -> comp B) (k' : B -> comp C) w :
  bind (bind m k) k' w = bind m (fun a => bind (k a) k') w.
Proof.
  unfold bind; simpl.
  destruct (res (m w)) as [a|e]; simpl; [|reflexivity].
  destruct (res (k a (final (m w)))); simpl; [|reflexivity].
  by rewrite app_assoc.
Qed.

Lemma invoke_ok {A} c (h : ext A) w a w' :
  h w = (Ok a, w') -> invoke c h w = Run (Ok a) w' [entry_ok c].
Proof. unfold invoke. by intros ->. Qed.

Lemma invoke_raise {A} c (h : ext A) w e w' :
  h w = (Raise e, w') ->
  invoke c h w = Run (Raise e) w' [{| ev := c; raised := Some e |}].
Proof. unfold invoke. by intros ->. Qed.

Lemma bind_invoke_ok {A B} c (h : ext A) (k : A -> comp B) w a w' :
  h w = (Ok a, w') ->
  bind (invoke c h) k w = prepend [entry_ok c] (k a w').
Proof. intros H. unfold bind. by rewrite (invoke_ok _ _ _ _ _ H). Qed.

Lemma bind_invoke_raise {A B} c (h : ext A) (k : A -> comp B) w e w' :
  h w = (Raise e, w') ->
  bind (invoke c h) k w = Run (Raise e) w' [{| ev := c; raised := Some e |}].
Proof. intros H. unfold bind. by rewrite (invoke_raise _ _ _ _ _ H). Qed.

Lemma bind_print {B} line (k : unit -> comp B) w :
  bind (print line) k w = prepend [entry_ok (print_call line)] (k tt w).
Proof. reflexivity. Qed.

Lemma bind_sleep {B} seconds (k : unit -> comp B) w :
  bind (sleep seconds) k w = prepend [entry_ok (sleep_call seconds)] (k tt w).
Proof. reflexivity. Qed.

(** ** The profile lookup *)

Lemma find_disable_profile_run profiles w :
  (find_disable_profile profiles : comp string) w
  = Run (match disable_profile profiles with
         | Some profile => Ok (port_profile_id profile)
         | None => Raise (ValueError "Could not find Disable profile")
         end) w [].
Proof.
  induction profiles as [|profile rest IH]; simpl; [reflexivity|].
  unfold disable_profile in *; simpl.
  destruct (String.eqb (name profile) "Disable"); [reflexivity|apply IH].
Qed.

Lemma bind_find_disable_profile {B} profiles (k : string -> comp B) w :
  bind (find_disable_profile profiles) k w
  = match disable_profile profiles with
    | Some profile => k (port_profile_id profile) w
    | None => Run (Raise (ValueError "Could not find Disable profile")) w []
    end.
Proof.
  unfold bind. rewrite find_disable_profile_run; simpl.
  destruct (disable_profile profiles); simpl; [|reflexivity].
  apply (prepend_nil (k _ w)).
Qed.

Lemma disable_profile_none profiles :
  disable_profile profiles = None <->
  forall profile, In profile profiles -> name profile <> "Disable".
Proof.
  unfold disable_profile. split.
  - intros H profile Hin. apply String.eqb_neq.
    exact (find_none _ _ H profile Hin).
  - intros H. destruct (find _ profiles) as [profile|] eqn:E; [|reflexivity].
    apply find_some in E as [Hin Heq]. apply String.eqb_eq in Heq.
    destruct (H profile Hin Heq).
Qed.

Lemma disable_profile_first before profile after :
  name profile = "Disable" ->
  (forall earlier, In earlier before -> name earlier <> "Disable") ->
  disable_profile (before ++ profile :: after) = Some profile.
Proof.
  intros Hname Hbefore. unfold disable_profile.
  induction before as [|q before IH]; simpl.
  - by rewrite Hname.
  - destruct (String.eqb_spec (name q) "Disable") as [Hq|_].
    + destruct (Hbefore q (or_introl eq_refl) Hq).
    + apply IH. intros earlier Hin. apply Hbefore. by right.
Qed.

(** ** The settings-preserving payload *)

Lemma opt_insert_lookup_ne (o : option json) (k key : string) (g : json -> json) (m : pydict) :
  key <> k ->
  (match o with Some v => <[k := g v]> m | None => m end) !! key = m !! key.
Proof. intros H. destruct o; [by rewrite lookup_insert_ne|done]. Qed.

Lemma opt_insert_lookup_eq (o : option json) (k : string) (g : json -> json) (m : pydict) :
  m !! k = None ->
  (match o with Some v => <[k := g v]> m | None => m end) !! k = g <$> o.
Proof. intros H. destruct o; [by rewrite lookup_insert_eq|done]. Qed.

Lemma preserve_port_settings_lookup port_details key :
  _preserve_port_settings port_details !! key
  = current_setting port_details key.
Proof.
  unfold _preserve_port_settings, current_setting.
  cbn [list_to_map foldr fst snd uncurry].
  repeat case_decide; subst.
  all: repeat first
    [ rewrite lookup_insert_eq; reflexivity
    | rewrite lookup_insert_ne by congruence
    | rewrite (opt_insert_lookup_ne _ _ _ (fun v => v)) by congruence
    | rewrite (opt_insert_lookup_ne _ _ _
                 (fun _ => JBool (topology_notify_enabled port_details)))
        by congruence
    | rewrite (opt_insert_lookup_eq _ _ (fun v => v));
        [by destruct (_data port_details !! _)|]
    | rewrite (opt_insert_lookup_eq _ _
                 (fun _ => JBool (topology_notify_enabled port_details)));
        [by destruct (_data port_details !! _)|]
    | apply lookup_empty ].
Qed.

(** ** Running the procedure against given answers of the client *)

Ltac open_monad :=
  unfold mbind, M_bind; cbv beta.

Ltac run_step :=
  first
    [ rewrite bind_assoc
    | erewrite bind_invoke_ok by eassumption
    | erewrite bind_invoke_raise by eassumption
    | rewrite bind_print
    | rewrite bind_sleep
    | rewrite bind_ret
    | rewrite bind_find_disable_profile ].

Ltac run := open_monad; repeat run_step.

(** C1. On a port without a schedule, when the client answers every call,
    the enable operation reads the port, looks up the profiles, sets the
    port to the "Disable" profile, sleeps one second, sets the port back
    to the profile read at the start, reads the port again and reports its
    state: two mutating calls, in that order, the delay between them. *)
Theorem enable_without_schedule_cycles_profile
    site_client device port w0 w1 w2 w3 w4 w5
    port_details profiles disable refreshed_port :
  get_switch_port site_client device port w0 = (Ok port_details, w1) ->
  has_schedule port_details = false ->
  get_port_profiles site_client w1 = (Ok profiles, w2) ->
  disable_profile profiles = Some disable ->
  update_switch_port site_client device port
    (Some (port_profile_id disable)) None w2 = (Ok tt, w3) ->
  update_switch_port site_client device port
    (Some (profile_id port_details)) None w3 = (Ok tt, w4) ->
  get_switch_port site_client device port w4 = (Ok refreshed_port, w5) ->
  let r : @run W OmadaDevice ControllerConfig bool :=
    _enable_port_via_schedule site_client device port w0 in
  r = Run (Ok true) w5
        [ entry_ok (get_switch_port_call device port);
          entry_ok get_port_profiles_call;
          entry_ok (update_switch_port_call device port
                      (Some (port_profile_id disable)) None);
          entry_ok (print_call
                      ("Port " ++ str_of_int port ++ " temporarily disabled"));
          entry_ok (sleep_call 1);
          entry_ok (update_switch_port_call device port
                      (Some (profile_id port_details)) None);
          entry_ok (print_call
                      ("Port " ++ str_of_int port
                       ++ " re-enabled with original profile"));
          entry_ok (get_switch_port_call device port);
          entry_ok (print_call
                      ("Port " ++ str_of_int port ++ " status: "
                       ++ (if is_disabled refreshed_port
                           then "disabled" else "enabled"))) ] /\
  mutating_calls (emitted r)
  = [ update_switch_port_call device port
        (Some (port_profile_id disable)) None;
      update_switch_port_call device port
        (Some (profile_id port_details)) None ].
Proof.
  intros Hread Hsched Hprofiles Hdisable Hoff Hback Hreread r.
  assert (Hr : r = Run (Ok true) w5
                     (map entry_ok
                        [ get_switch_port_call device port;
                          get_port_profiles_call;
                          update_switch_port_call device port
                            (Some (port_profile_id disable)) None;
                          print_call ("Port " ++ str_of_int port
                                      ++ " temporarily disabled");
                          sleep_call 1;
                          update_switch_port_call device port
                            (Some (profile_id port_details)) None;
                          print_call ("Port " ++ str_of_int port
                                      ++ " re-enabled with original profile");
                          get_switch_port_call device port;
                          print_call ("Port " ++ str_of_int port ++ " status: "
                                      ++ (if is_disabled refreshed_port
                                          then "disabled" else "enabled")) ])).
  { subst r. unfold _enable_port_via_schedule. run.
    rewrite Hsched. unfold _get_disable_profile_id. run.
    rewrite Hdisable. run.
    unfold ret. destruct (is_disabled refreshed_port); reflexivity. }
  split; [exact Hr|]. rewrite Hr. reflexivity.
Qed.

(** C2. On a port with a schedule the enable operation issues one mutating
    call and no profile lookup: an override whose payload has
    [scheduleEnable] false and, under every other key, the port's current
    setting; the call names no profile.  This holds whether the call
    returns or raises. *)
Theorem enable_with_schedule_single_override
    site_client device port w0 w1 w2 port_details (answer : result unit) :
  get_switch_port site_client device port w0 = (Ok port_details, w1) ->
  has_schedule port_details = true ->
  let payload : pydict :=
    <["scheduleEnable" := JBool false]> (_preserve_port_settings port_details) in
  update_switch_port site_client device port None (Some payload) w1
    = (answer, w2) ->
  let r : @run W OmadaDevice ControllerConfig bool :=
    _enable_port_via_schedule site_client device port w0 in
  r = Run (match answer with Ok _ => Ok true | Raise e => Raise e end) w2
        ([ entry_ok (get_switch_port_call device port);
           {| ev := update_switch_port_call device port None (Some payload);
              raised := outcome answer |} ]
         ++ match answer with
            | Ok _ => [ entry_ok (print_call
                          ("Port " ++ str_of_int port
                           ++ " enabled by disabling schedule")) ]
            | Raise _ => []
            end) /\
  mutating_calls (emitted r)
    = [ update_switch_port_call device port None (Some payload) ] /\
  profile_lookups (emitted r) = [] /\
  payload !! "scheduleEnable" = Some (JBool false) /\
  (forall key, key <> "scheduleEnable" ->
     payload !! key = current_setting port_details key).
Proof.
  intros Hread Hsched payload Hupdate r.
  assert (Hr : r = Run (match answer with Ok _ => Ok true | Raise e => Raise e end) w2
        ([ entry_ok (get_switch_port_call device port);
           {| ev := update_switch_port_call device port None (Some payload);
              raised := outcome answer |} ]
         ++ match answer with
            | Ok _ => [ entry_ok (print_call
                          ("Port " ++ str_of_int port
                           ++ " enabled by disabling schedule")) ]
            | Raise _ => []
            end)).
  { subst r. unfold _enable_port_via_schedule. run. rewrite Hsched.
    fold payload. destruct answer as [[]|e]; run; reflexivity. }
  split; [exact Hr|]. rewrite Hr.
  repeat split.
  - by destruct answer.
  - by destruct answer.
  - apply lookup_insert_eq.
  - intros key Hkey. unfold payload. rewrite lookup_insert_ne by congruence.
    apply preserve_port_settings_lookup.
Qed.

(** C3. Disabling with [apply_schedule] a port that has a schedule issues
    one mutating call and no profile lookup: an override whose payload has
    [scheduleEnable] true and, under every other key, the port's current
    setting; the call names no profile. *)
Theorem disable_with_schedule_single_override
    site_client device port w0 w1 w2 port_details (answer : result unit) :
  get_switch_port site_client device port w0 = (Ok port_details, w1) ->
  has_schedule port_details = true ->
  let payload : pydict :=
    <["scheduleEnable" := JBool true]> (_preserve_port_settings port_details) in
  update_switch_port site_client device port None (Some payload) w1
    = (answer, w2) ->
  let r : @run W OmadaDevice ControllerConfig bool :=
    _disable_port_via_schedule site_client device port true w0 in
  r = Run (match answer with Ok _ => Ok true | Raise e => Raise e end) w2
        ([ entry_ok (get_switch_port_call device port);
           {| ev := update_switch_port_call device port None (Some payload);
              raised := outcome answer |} ]
         ++ match answer with
            | Ok _ => [ entry_ok (print_call
                          ("Port " ++ str_of_int port
                           ++ " disabled by enabling schedule")) ]
            | Raise _ => []
            end) /\
  mutating_calls (emitted r)
    = [ update_switch_port_call device port None (Some payload) ] /\
  profile_lookups (emitted r) = [] /\
  payload !! "scheduleEnable" = Some (JBool true) /\
  (forall key, key <> "scheduleEnable" ->
     payload !! key = current_setting port_details key).
Proof.
  intros Hread Hsched payload Hupdate r.
  assert (Hr : r = Run (match answer with Ok _ => Ok true | Raise e => Raise e end) w2
        ([ entry_ok (get_switch_port_call device port);
           {| ev := update_switch_port_call device port None (Some payload);
              raised := outcome answer |} ]
         ++ match answer with
            | Ok _ => [ entry_ok (print_call
                          ("Port " ++ str_of_int port
                           ++ " disabled by enabling schedule")) ]
            | Raise _ => []
            end)).
  { subst r. unfold _disable_port_via_schedule. run. rewrite Hsched.
    cbn [andb]. fold payload. destruct answer as [[]|e]; run; reflexivity. }
  split; [exact Hr|]. rewrite Hr.
  repeat split.
  - by destruct answer.
  - by destruct answer.
  - apply lookup_insert_eq.
  - intros key Hkey. unfold payload. rewrite lookup_insert_ne by congruence.
    apply preserve_port_settings_lookup.
Qed.

(** C4. Disabling without [apply_schedule], or a port without a schedule,
    issues one mutating call, which sets the port's profile to the id of
    the "Disable" profile, and nothing after it but the report: no second
    update, whether the call returns or raises. *)
Theorem disable_via_profile_single_update
    site_client device port apply_schedule w0 w1 w2 w3
    port_details profiles disable (answer : result unit) :
  get_switch_port site_client device port w0 = (Ok port_details, w1) ->
  apply_schedule = false \/ has_schedule port_details = false ->
  get_port_profiles site_client w1 = (Ok profiles, w2) ->
  disable_profile profiles = Some disable ->
  update_switch_port site_client device port
    (Some (port_profile_id disable)) None w2 = (answer, w3) ->
  let r : @run W OmadaDevice ControllerConfig bool :=
    _disable_port_via_schedule site_client device port apply_schedule w0 in
  r = Run (match answer with Ok _ => Ok true | Raise e => Raise e end) w3
        ([ entry_ok (get_switch_port_call device port);
           entry_ok get_port_profiles_call;
           {| ev := update_switch_port_call device port
                      (Some (port_profile_id disable)) None;
              raised := outcome answer |} ]
         ++ match answer with
            | Ok _ => [ entry_ok (print_call
                          ("Port " ++ str_of_int port ++ " disabled via profile")) ]
            | Raise _ => []
            end) /\
  mutating_calls (emitted r)
    = [ update_switch_port_call device port
          (Some (port_profile_id disable)) None ].
Proof.
  intros Hread Hpath Hprofiles Hdisable Hupdate r.
  assert (Hcond : has_schedule port_details && apply_schedule = false).
  { destruct Hpath as [-> | ->]; [apply andb_false_r|reflexivity]. }
  assert (Hr : r = Run (match answer with Ok _ => Ok true | Raise e => Raise e end) w3
        ([ entry_ok (get_switch_port_call device port);
           entry_ok get_port_profiles_call;
           {| ev := update_switch_port_call device port
                      (Some (port_profile_id disable)) None;
              raised := outcome answer |} ]
         ++ match answer with
            | Ok _ => [ entry_ok (print_call
                          ("Port " ++ str_of_int port ++ " disabled via profile")) ]
            | Raise _ => []
            end)).
  { subst r. unfold _disable_port_via_schedule. run. rewrite Hcond.
    unfold _get_disable_profile_id. run. rewrite Hdisable.
    destruct answer as [[]|e]; run; reflexivity. }
  split; [exact Hr|]. rewrite Hr. by destruct answer.
Qed.

(** ** Failures *)

Lemma fail_stop_clean {A} (r : result A) t :
  Forall (fun x => raised x = None) t -> fail_stop r t.
Proof.
  intros Hclean before c e after ->.
  apply Forall_app in Hclean as [_ Hclean].
  apply Forall_cons in Hclean as [Hx _]. discriminate Hx.
Qed.

Lemma fail_stop_ok_clean {A} (a : A) t :
  fail_stop (Ok a) t -> Forall (fun x => raised x = None) t.
Proof.
  intros Hstop. apply Forall_forall. intros [c [e|]] Hin; [|reflexivity].
  apply list_elem_of_split in Hin as (before & after & ->).
  destruct (Hstop before c e after eq_refl) as [_ Hr]. discriminate Hr.
Qed.

Lemma fail_stop_app_clean {A} (r : result A) t1 t2 :
  Forall (fun x => raised x = None) t1 -> fail_stop r t2 ->
  fail_stop r (t1 ++ t2).
Proof.
  induction 1 as [|y t1 Hy Hclean IH]; intros Hstop; [exact Hstop|].
  intros before c e after Heq. destruct before as [|z before]; simpl in Heq.
  - injection Heq as -> _. discriminate Hy.
  - injection Heq as _ Heq. exact (IH Hstop before c e after Heq).
Qed.

Lemma propagates_ret {A} (a : A) : propagates (ret a : comp A).
Proof. intros w. by apply fail_stop_clean. Qed.

Lemma propagates_throw {A} e : propagates (throw e : comp A).
Proof. intros w. by apply fail_stop_clean. Qed.

Lemma propagates_print line : propagates (print line : comp unit).
Proof. intros w. apply fail_stop_clean. by repeat constructor. Qed.

Lemma propagates_sleep seconds : propagates (sleep seconds : comp unit).
Proof. intros w. apply fail_stop_clean. by repeat constructor. Qed.

Lemma propagates_invoke {A} c (h : ext A) : propagates (invoke c h : comp A).
Proof.
  intros w. unfold invoke. destruct (h w) as [r w']; simpl.
  intros before c' e after Heq.
  destruct before as [|z before]; simpl in Heq.
  - injection Heq as Hc Hr <-. split; [reflexivity|].
    destruct r; simpl in Hr; congruence.
  - injection Heq as _ Heq. by destruct before.
Qed.

Lemma propagates_bind {A B} (m : comp A) (k : A -> comp B) :
  propagates m -> (forall a, propagates (k a)) -> propagates (bind m k).
Proof.
  intros Hm Hk w. unfold bind. specialize (Hm w).
  destruct (res (m w)) as [a|e]; simpl.
  2:{ intros before c e' after Heq.
      destruct (Hm before c e' after Heq) as [-> [= ->]]. by split. }
  apply fail_stop_app_clean; [exact (fail_stop_ok_clean _ _ Hm)|apply Hk].
Qed.

Lemma propagates_find_disable_profile profiles :
  propagates (find_disable_profile profiles : comp string).
Proof.
  intros w. rewrite find_disable_profile_run. by apply fail_stop_clean.
Qed.

Lemma propagates_get_disable_profile_id site_client :
  propagates (_get_disable_profile_id site_client : comp string).
Proof.
  apply propagates_bind; [apply propagates_invoke|].
  apply propagates_find_disable_profile.
Qed.

Ltac propagate :=
  repeat first
    [ apply propagates_ret
    | apply propagates_print
    | apply propagates_sleep
    | apply propagates_invoke
    | apply propagates_get_disable_profile_id
    | apply propagates_bind; [|intros ?] ].

Lemma propagates_enable site_client device port :
  propagates (_enable_port_via_schedule site_client device port : comp bool).
Proof.
  unfold _enable_port_via_schedule. open_monad.
  apply propagates_bind; [apply propagates_invoke|]. intros port_details.
  destruct (has_schedule port_details); propagate.
Qed.

Lemma propagates_disable site_client device port apply_schedule :
  propagates (_disable_port_via_schedule site_client device port apply_schedule
              : comp bool).
Proof.
  unfold _disable_port_via_schedule. open_monad.
  apply propagates_bind; [apply propagates_invoke|]. intros port_details.
  destruct (has_schedule port_details && apply_schedule); propagate.
Qed.

Lemma disable_profile_some profiles profile :
  disable_profile profiles = Some profile ->
  exists before after,
    profiles = (before ++ profile :: after)%list /\
    name profile = "Disable" /\
    (forall earlier, In earlier before -> name earlier <> "Disable").
Proof.
  unfold disable_profile.
  induction profiles as [|q rest IH]; simpl; [discriminate|].
  destruct (String.eqb_spec (name q) "Disable") as [Hq|Hq].
  - intros [= ->]. exists [], rest. by repeat split.
  - intros Hfind. destruct (IH Hfind) as (before & after & -> & Hname & Hbefore).
    exists (q :: before), after. repeat split; [done|].
    intros earlier [<-|Hin]; [exact Hq|by apply Hbefore].
Qed.

Lemma get_disable_profile_id_run site_client w w' profiles :
  get_port_profiles site_client w = (Ok profiles, w') ->
  (_get_disable_profile_id site_client : comp string) w
  = Run (match disable_profile profiles with
         | Some profile => Ok (port_profile_id profile)
         | None => Raise (ValueError "Could not find Disable profile")
         end) w' [entry_ok get_port_profiles_call].
Proof.
  intros Hprofiles. unfold _get_disable_profile_id. open_monad.
  unfold bind. rewrite (invoke_ok _ _ _ _ _ Hprofiles); simpl.
  by rewrite find_disable_profile_run.
Qed.

(** C9. When the profile list has a profile named "Disable", the lookup
    returns the id of the first one in list order: the list splits into
    profiles not named "Disable", the profile whose id is returned, and the
    rest, which may hold further profiles of that name. *)
Theorem disable_lookup_returns_first_match
    site_client w w' profiles named :
  get_port_profiles site_client w = (Ok profiles, w') ->
  In named profiles ->
  name named = "Disable" ->
  exists before first after,
    profiles = (before ++ first :: after)%list /\
    name first = "Disable" /\
    (forall earlier, In earlier before -> name earlier <> "Disable") /\
    (_get_disable_profile_id site_client : comp string) w
    = Run (Ok (port_profile_id first)) w' [entry_ok get_port_profiles_call].
Proof.
  intros Hprofiles Hin Hname.
  destruct (disable_profile profiles) as [first|] eqn:Hfind.
  - destruct (disable_profile_some _ _ Hfind)
      as (before & after & Hsplit & Hfirst & Hbefore).
    exists before, first, after. repeat split; try assumption.
    rewrite (get_disable_profile_id_run _ _ _ _ Hprofiles). by rewrite Hfind.
  - destruct (proj1 (disable_profile_none profiles) Hfind named Hin Hname).
Qed.

(** C5. With the profile list read, the lookup raises exactly when no
    profile is named "Disable".  In that case the enable operation on a port
    without a schedule, and the disable operation on its profile path, raise
    the lookup's [ValueError] after the two reads and issue no mutating
    call. *)
Theorem missing_disable_profile_aborts
    site_client device port apply_schedule w0 w1 w2 port_details profiles :
  get_switch_port site_client device port w0 = (Ok port_details, w1) ->
  get_port_profiles site_client w1 = (Ok profiles, w2) ->
  let missing := forall profile, In profile profiles -> name profile <> "Disable" in
  let aborted : @run W OmadaDevice ControllerConfig bool :=
    Run (Raise (ValueError "Could not find Disable profile")) w2
      [ entry_ok (get_switch_port_call device port);
        entry_ok get_port_profiles_call ] in
  ((exists e, res ((_get_disable_profile_id site_client : comp string) w1)
              = Raise e) <-> missing) /\
  (missing -> has_schedule port_details = false ->
   _enable_port_via_schedule site_client device port w0 = aborted) /\
  (missing -> apply_schedule = false \/ has_schedule port_details = false ->
   _disable_port_via_schedule site_client device port apply_schedule w0 = aborted) /\
  mutating_calls (emitted aborted) = [].
Proof.
  intros Hread Hprofiles missing aborted. subst missing aborted.
  split; [split|split; [|split; [|reflexivity]]].
  - rewrite (get_disable_profile_id_run _ _ _ _ Hprofiles); simpl.
    intros [e He]. apply disable_profile_none.
    by destruct (disable_profile profiles).
  - intros Hmissing. apply disable_profile_none in Hmissing.
    rewrite (get_disable_profile_id_run _ _ _ _ Hprofiles); simpl.
    rewrite Hmissing. by eexists.
  - intros Hmissing Hsched. apply disable_profile_none in Hmissing.
    unfold _enable_port_via_schedule. run. rewrite Hsched.
    unfold _get_disable_profile_id. run. by rewrite Hmissing.
  - intros Hmissing Hpath. apply disable_profile_none in Hmissing.
    assert (Hcond : has_schedule port_details && apply_schedule = false).
    { destruct Hpath as [-> | ->]; [apply andb_false_r|reflexivity]. }
    unfold _disable_port_via_schedule. run. rewrite Hcond.
    unfold _get_disable_profile_id. run. by rewrite Hmissing.
Qed.

(** C6. The enable operation reads the port before anything else.  If that
    read raises, the exception is the result and nothing was mutated.  If it
    returns a port without a schedule, then whatever the client answers
    afterwards the mutating calls are an initial part of: set some profile,
    then set the profile id of that first read.  And of that first read
    only the profile id matters: two reads that agree on it, on ports
    without a schedule, lead to the same run. *)
Theorem original_profile_captured_before_mutation site_client device port w0 :
  (forall e w1,
     get_switch_port site_client device port w0 = (Raise e, w1) ->
     (_enable_port_via_schedule site_client device port : comp bool) w0
     = Run (Raise e) w1
         [{| ev := get_switch_port_call device port; raised := Some e |}]) /\
  (forall port_details w1,
     get_switch_port site_client device port w0 = (Ok port_details, w1) ->
     has_schedule port_details = false ->
     exists disable_profile_id,
       mutating_calls
         (emitted ((_enable_port_via_schedule site_client device port
                    : comp bool) w0))
       `prefix_of`
       [ update_switch_port_call device port (Some disable_profile_id) None;
         update_switch_port_call device port
           (Some (profile_id port_details)) None ]) /\
  (forall port_details port_details' w0' w1,
     get_switch_port site_client device port w0 = (Ok port_details, w1) ->
     get_switch_port site_client device port w0' = (Ok port_details', w1) ->
     has_schedule port_details = false ->
     has_schedule port_details' = false ->
     profile_id port_details = profile_id port_details' ->
     (_enable_port_via_schedule site_client device port : comp bool) w0
     = _enable_port_via_schedule site_client device port w0').
Proof.
  split; [|split].
  - intros e w1 Hread. unfold _enable_port_via_schedule. by run.
  - intros port_details w1 Hread Hsched.
    unfold _enable_port_via_schedule. run. rewrite Hsched.
    unfold _get_disable_profile_id. run.
    destruct (get_port_profiles site_client w1) as [[profiles|e] w2] eqn:Hprofiles;
      run; [|exists ""; by eexists].
    destruct (disable_profile profiles) as [disable|] eqn:Hdisable;
      [|exists ""; by eexists].
    exists (port_profile_id disable).
    destruct (update_switch_port site_client device port
                (Some (port_profile_id disable)) None w2)
      as [[[]|e] w3] eqn:Hoff; run; [|by eexists].
    destruct (update_switch_port site_client device port
                (Some (profile_id port_details)) None w3)
      as [[[]|e] w4] eqn:Hback; run; [|by eexists].
    destruct (get_switch_port site_client device port w4)
      as [[refreshed|e] w5] eqn:Hreread; run; by exists [].
  - intros port_details port_details' w0' w1 Hread Hread' Hsched Hsched' Hsame.
    unfold _enable_port_via_schedule. open_monad.
    rewrite (bind_invoke_ok _ _ _ _ _ _ Hread).
    rewrite (bind_invoke_ok _ _ _ _ _ _ Hread').
    by rewrite Hsched, Hsched', Hsame.
Qed.

(** C7. An exception raised by a call of the site client ends the
    operation: in every run of the enable and of the disable operation a
    call that raised is the last entry of the log, and its exception is the
    operation's result, so nothing is retried and nothing is undone.  In
    particular, when the restoring update of the enable cycle raises, the
    log ends there and the one update the controller applied is the one to
    the "Disable" profile. *)
Theorem client_failures_propagate site_client device port apply_schedule :
  propagates (_enable_port_via_schedule site_client device port : comp bool) /\
  propagates (_disable_port_via_schedule site_client device port apply_schedule
              : comp bool) /\
  (forall w0 w1 w2 w3 w4 port_details profiles disable e,
     get_switch_port site_client device port w0 = (Ok port_details, w1) ->
     has_schedule port_details = false ->
     get_port_profiles site_client w1 = (Ok profiles, w2) ->
     disable_profile profiles = Some disable ->
     update_switch_port site_client device port
       (Some (port_profile_id disable)) None w2 = (Ok tt, w3) ->
     update_switch_port site_client device port
       (Some (profile_id port_details)) None w3 = (Raise e, w4) ->
     let r : @run W OmadaDevice ControllerConfig bool :=
       _enable_port_via_schedule site_client device port w0 in
     r = Run (Raise e) w4
           [ entry_ok (get_switch_port_call device port);
             entry_ok get_port_profiles_call;
             entry_ok (update_switch_port_call device port
                         (Some (port_profile_id disable)) None);
             entry_ok (print_call
                         ("Port " ++ str_of_int port ++ " temporarily disabled"));
             entry_ok (sleep_call 1);
             {| ev := update_switch_port_call device port
                        (Some (profile_id port_details)) None;
                raised := Some e |} ] /\
     applied_updates (emitted r)
     = [ update_switch_port_call device port
           (Some (port_profile_id disable)) None ]).
Proof.
  split; [apply propagates_enable|split; [apply propagates_disable|]].
  intros w0 w1 w2 w3 w4 port_details profiles disable e
    Hread Hsched Hprofiles Hdisable Hoff Hback r.
  assert (Hr : r = Run (Raise e) w4
           [ entry_ok (get_switch_port_call device port);
             entry_ok get_port_profiles_call;
             entry_ok (update_switch_port_call device port
                         (Some (port_profile_id disable)) None);
             entry_ok (print_call
                         ("Port " ++ str_of_int port ++ " temporarily disabled"));
             entry_ok (sleep_call 1);
             {| ev := update_switch_port_call device port
                        (Some (profile_id port_details)) None;
                raised := Some e |} ]).
  { subst r. unfold _enable_port_via_schedule. run. rewrite Hsched.
    unfold _get_disable_profile_id. run. rewrite Hdisable. by run. }
  split; [exact Hr|]. by rewrite Hr.
Qed.

(** ** The command *)

Lemma finally_bind_invoke_ok {A B} c (h : ext A) (k : A -> comp B) cleanup w a w' :
  h w = (Ok a, w') ->
  finally (bind (invoke c h) k) cleanup w
  = prepend [entry_ok c] (finally (k a) cleanup w').
Proof. intros H. unfold finally. by rewrite (bind_invoke_ok _ _ _ _ _ _ H). Qed.

Lemma finally_bind_lift_ok {A B} (a : A) (k : A -> comp B) cleanup w :
  finally (bind (lift (Ok a)) k) cleanup w = finally (k a) cleanup w.
Proof. unfold finally. by rewrite bind_lift_ok. Qed.

Lemma finally_run {A} (body : comp A) cleanup w r1 w1 t1 r2 w2 t2 :
  body w = Run r1 w1 t1 ->
  cleanup (outcome r1) w1 = Run r2 w2 t2 ->
  finally body cleanup w
  = Run (match r2 with Ok _ => r1 | Raise e => Raise e end) w2 (t1 ++ t2).
Proof. intros H1 H2. unfold finally. rewrite H1; simpl. by rewrite H2. Qed.

Lemma command_reaches host args w0 connection site_client device port w7 t :
  reaches_branch host args w0 connection site_client device port w7 t ->
  command_switch_port host args w0
  = prepend t
      (finally (toggle_and_dump host site_client device port args)
         (fun exc => invoke connection_exit_call (aexit connection exc)) w7).
Proof.
  intros (controller & config & client & mac & w1 & w2 & w3 & w4 & w5 & w6
          & H1 & H2 & H3 & H4 & H5 & H6 & H7 & Hport & ->).
  unfold command_switch_port. run.
  rewrite (finally_bind_invoke_ok _ _ _ _ _ _ _ H5).
  rewrite (finally_bind_invoke_ok _ _ _ _ _ _ _ H6).
  rewrite (finally_bind_invoke_ok _ _ _ _ _ _ _ H7).
  rewrite Hport, finally_bind_lift_ok.
  reflexivity.
Qed.

Lemma returns_only_ret {A} (P : A -> Prop) a :
  P a -> returns_only P (ret a : comp A).
Proof. intros HP w a' [= <-]. exact HP. Qed.

Lemma returns_only_bind {A B} (P : B -> Prop) (m : comp A) (k : A -> comp B) :
  (forall a, returns_only P (k a)) -> returns_only P (bind m k).
Proof.
  intros Hk w b. unfold bind. destruct (res (m w)) as [a|e]; simpl.
  - apply Hk.
  - discriminate.
Qed.

Lemma returns_only_finally {A} (P : A -> Prop) (body : comp A) cleanup :
  returns_only P body -> returns_only P (finally body cleanup).
Proof.
  intros Hbody w a. unfold finally; simpl.
  destruct (res (cleanup _ _)); [apply Hbody|discriminate].
Qed.

Lemma command_returns_only_zero host args :
  returns_only (fun z => z = 0) (command_switch_port host args).
Proof.
  unfold command_switch_port. open_monad.
  do 4 (apply returns_only_bind; intros ?).
  apply returns_only_finally.
  do 6 (apply returns_only_bind; intros ?).
  by apply returns_only_ret.
Qed.

(** C8, as the code has it.  When the steps before the branch return, the
    branch returns, the dump (when asked for) reads the port and prints it
    without raising, and the connection closes without raising, the command
    returns 0, whichever operation and strategy ran and whether or not the
    dump was asked for.  And 0 is the only value the command ever
    returns. *)
Theorem command_returns_zero
    host args w0 connection site_client device port w7 t w8 tb w9 td w10 :
  reaches_branch host args w0 connection site_client device port w7 t ->
  toggle_branch site_client device port args w7 = Run (Ok tt) w8 tb ->
  (arg_dump args = false /\ w9 = w8 /\ td = []) \/
  (arg_dump args = true /\
   exists port_details w',
     get_switch_port site_client device port w8 = (Ok port_details, w') /\
     dump_raw_data host args port_details w' = (Ok tt, w9) /\
     td = [ entry_ok (get_switch_port_call device port);
            entry_ok (dump_raw_data_call args port_details) ]) ->
  aexit connection None w9 = (Ok tt, w10) ->
  command_switch_port host args w0
  = Run (Ok 0) w10 (t ++ tb ++ td ++ [entry_ok connection_exit_call]) /\
  returns_only (fun z => z = 0) (command_switch_port host args).
Proof.
  intros Hsetup Hbranch Hdump Hexit.
  split; [|apply command_returns_only_zero].
  rewrite (command_reaches _ _ _ _ _ _ _ _ _ Hsetup).
  assert (Hbody : toggle_and_dump host site_client device port args w7
                  = Run (Ok 0) w9 (tb ++ td)).
  { unfold toggle_and_dump. open_monad. unfold bind at 1. rewrite Hbranch; simpl.
    destruct Hdump as [(-> & -> & ->)
                      |(-> & port_details & w' & Hread & Hprint & ->)].
    - by rewrite bind_ret.
    - by run. }
  rewrite (finally_run _ _ _ _ _ _ _ _ _ Hbody
             (invoke_ok connection_exit_call _ _ _ _ Hexit)).
  simpl. by rewrite <- !app_assoc.
Qed.

(** ** The dump flag *)

Lemma mutating_calls_app t1 t2 :
  mutating_calls (t1 ++ t2) = (mutating_calls t1 ++ mutating_calls t2)%list.
Proof. unfold mutating_calls. by rewrite map_app, List.filter_app. Qed.

Lemma port_reads_app t1 t2 :
  port_reads (t1 ++ t2) = (port_reads t1 ++ port_reads t2)%list.
Proof. unfold port_reads. by rewrite map_app, List.filter_app. Qed.

Lemma emitted_bind {A B} (m : comp A) (k : A -> comp B) w :
  emitted (bind m k w)
  = (emitted (m w)
     ++ match res (m w) with
        | Ok a => emitted (k a (final (m w)))
        | Raise _ => []
        end)%list.
Proof.
  unfold bind. destruct (res (m w)); simpl; [reflexivity|].
  by rewrite app_nil_r.
Qed.

Lemma emitted_invoke {A} c (h : ext A) w :
  emitted ((invoke c h : comp A) w) = [{| ev := c; raised := outcome (h w).1 |}].
Proof. unfold invoke. by destruct (h w). Qed.

Lemma res_invoke {A} c (h : ext A) w :
  res ((invoke c h : comp A) w) = (h w).1.
Proof. unfold invoke. by destruct (h w). Qed.

Lemma final_invoke {A} c (h : ext A) w :
  final ((invoke c h : comp A) w) = (h w).2.
Proof. unfold invoke. by destruct (h w). Qed.

Lemma emitted_finally {A} (body : comp A) cleanup w :
  emitted (finally body cleanup w)
  = (emitted (body w)
     ++ emitted (cleanup (outcome (res (body w))) (final (body w))))%list.
Proof. reflexivity. Qed.

(** What the dump adds to the log carries no mutating call. *)
Lemma dump_steps_mutate_nothing host site_client device port args
    (k : unit -> comp Z) w :
  (forall u w', mutating_calls (emitted (k u w')) = []) ->
  mutating_calls
    (emitted
       (bind (bind (invoke (get_switch_port_call device port)
                      (get_switch_port site_client device port))
                (fun port_details =>
                   invoke (dump_raw_data_call args port_details)
                     (dump_raw_data host args port_details))) k w))
  = [].
Proof.
  intros Hk.
  destruct (get_switch_port site_client device port w)
    as [[port_details|e] w'] eqn:Hread; run; [|reflexivity].
  destruct (dump_raw_data host args port_details w')
    as [[[]|e] w''] eqn:Hprint; run; [|reflexivity].
  cbn [prepend emitted]. rewrite !mutating_calls_app. by rewrite Hk.
Qed.

Lemma command_mutations_without_dump host args w0 :
  get_target_argument host (with_dump true args) w0
  = get_target_argument host (with_dump false args) w0 ->
  mutating_calls (emitted (command_switch_port host (with_dump true args) w0))
  = mutating_calls (emitted (command_switch_port host (with_dump false args) w0)).
Proof.
  intros Hsame. unfold command_switch_port. open_monad.
  cbn [with_dump arg_mac arg_port arg_enable arg_disable arg_apply_schedule
       arg_dump].
  destruct (get_target_argument host (with_dump false args) w0)
    as [[controller|e] w1] eqn:H1;
    pose proof H1 as H1'; rewrite <- Hsame in H1'; run; [|reflexivity].
  destruct (get_target_config host controller w1) as [[config|e] w2] eqn:H2;
    run; [|reflexivity].
  destruct (to_omada_connection host config w2) as [[connection|e] w3] eqn:H3;
    run; [|reflexivity].
  destruct (aenter connection w3) as [[client|e] w4] eqn:H4;
    run; [|reflexivity].
  cbn [prepend emitted]. rewrite !mutating_calls_app. do 4 f_equal.
  rewrite !emitted_finally, !mutating_calls_app, !emitted_invoke.
  f_equal.
  destruct (get_site_client client (site host config) w4)
    as [[site_client|e] w5] eqn:H5; run; [|reflexivity].
  destruct (get_device_mac host site_client (arg_mac args) w5)
    as [[mac|e] w6] eqn:H6; run; [|reflexivity].
  destruct (get_device site_client mac w6) as [[device|e] w7] eqn:H7;
    run; [|reflexivity].
  destruct (py_int host (arg_port args)) as [port|e]; [|reflexivity].
  rewrite !bind_lift_ok.
  cbn [prepend emitted]. rewrite !mutating_calls_app. do 3 f_equal.
  rewrite (emitted_bind _ _ w7).
  rewrite (emitted_bind _ (fun _ => bind (ret tt) _) w7).
  rewrite !mutating_calls_app. f_equal.
  match goal with
  | |- context [res (?m w7)] => destruct (res (m w7)) as [[]|e]
  end; [|reflexivity].
  rewrite bind_ret. cbn [ret emitted mutating_calls map List.filter].
  by apply dump_steps_mutate_nothing.
Qed.

Lemma dump_steps_read_once host site_client device port args w :
  port_reads
    (emitted
       (bind (bind (invoke (get_switch_port_call device port)
                      (get_switch_port site_client device port))
                (fun port_details =>
                   invoke (dump_raw_data_call args port_details)
                     (dump_raw_data host args port_details)))
          (fun _ => ret 0 : comp Z) w))
  = [get_switch_port_call device port].
Proof.
  destruct (get_switch_port site_client device port w)
    as [[port_details|e] w'] eqn:Hread; run; [|reflexivity].
  destruct (dump_raw_data host args port_details w')
    as [[[]|e] w''] eqn:Hprint; run; reflexivity.
Qed.

(** C10. Provided the target argument is resolved the same way with and
    without the dump flag, the command issues the same mutating calls, in
    the same order, with the flag as without it, whatever the client
    answers.  And when the steps before the branch and the branch itself
    return, the port reads with the flag are the reads without it, which
    are those of the branch, followed by one more read of the same port. *)
Theorem dump_flag_adds_one_read
    host args w0 connection site_client device port w7 t w8 tb :
  get_target_argument host (with_dump true args) w0
  = get_target_argument host (with_dump false args) w0 ->
  let dumping := command_switch_port host (with_dump true args) w0 in
  let plain := command_switch_port host (with_dump false args) w0 in
  mutating_calls (emitted dumping) = mutating_calls (emitted plain) /\
  (reaches_branch host (with_dump false args) w0
     connection site_client device port w7 t ->
   toggle_branch site_client device port (with_dump false args) w7
   = Run (Ok tt) w8 tb ->
   port_reads (emitted plain) = port_reads tb /\
   port_reads (emitted dumping)
   = (port_reads (emitted plain) ++ [get_switch_port_call device port])%list).
Proof.
  intros Hsame dumping plain.
  split; [by apply command_mutations_without_dump|].
  intros Hsetup Hbranch.
  assert (Hsetup' : exists t',
             reaches_branch host (with_dump true args) w0
               connection site_client device port w7 t' /\
             port_reads t' = [] /\ port_reads t = []).
  { destruct Hsetup as (controller & config & client & mac
                        & w1 & w2 & w3 & w4 & w5 & w6
                        & H1 & H2 & H3 & H4 & H5 & H6 & H7 & Hport & ->).
    eexists. split.
    - exists controller, config, client, mac, w1, w2, w3, w4, w5, w6.
      rewrite Hsame. by repeat split.
    - by split. }
  destruct Hsetup' as (t' & Hsetup' & Ht' & Ht).
  assert (Hplain : port_reads (emitted plain) = port_reads tb).
  { subst plain. rewrite (command_reaches _ _ _ _ _ _ _ _ _ Hsetup).
    cbn [prepend emitted].
    rewrite port_reads_app, Ht, emitted_finally, port_reads_app, emitted_invoke.
    unfold toggle_and_dump. open_monad. cbn [with_dump arg_dump].
    rewrite emitted_bind, Hbranch, port_reads_app; simpl.
    by rewrite !app_nil_r. }
  split; [exact Hplain|]. rewrite Hplain.
  subst dumping. rewrite (command_reaches _ _ _ _ _ _ _ _ _ Hsetup').
  cbn [prepend emitted].
  rewrite port_reads_app, Ht', emitted_finally, port_reads_app, emitted_invoke.
  unfold toggle_and_dump. open_monad. cbn [with_dump arg_dump].
  change (toggle_branch site_client device port (with_dump true args))
    with (toggle_branch site_client device port (with_dump false args)
          : comp unit).
  rewrite emitted_bind, Hbranch, port_reads_app. cbn [res final emitted].
  rewrite dump_steps_read_once. simpl. by rewrite app_nil_r.
Qed.

(** * Further properties of the module *)

(** ** What the operations return *)

(** Both operations return [True] whenever they return: a failure is only
    ever an exception. *)
Theorem operations_return_true site_client device port apply_schedule :
  returns_only (fun b => b = true)
    (_enable_port_via_schedule site_client device port : comp bool) /\
  returns_only (fun b => b = true)
    (_disable_port_via_schedule site_client device port apply_schedule
     : comp bool).
Proof.
  split.
  - unfold _enable_port_via_schedule. open_monad.
    apply returns_only_bind. intros port_details.
    destruct (has_schedule port_details);
      repeat (apply returns_only_bind; intros ?); by apply returns_only_ret.
  - unfold _disable_port_via_schedule. open_monad.
    apply returns_only_bind. intros port_details.
    destruct (has_schedule port_details && apply_schedule);
      repeat (apply returns_only_bind; intros ?); by apply returns_only_ret.
Qed.

(** ** Which port the operations touch *)

Lemma log_all_ret {A} (P : call -> Prop) (a : A) : log_all P (ret a : comp A).
Proof. intros w. constructor. Qed.

Lemma log_all_print (P : call -> Prop) line :
  P (print_call line) -> log_all P (print line : comp unit).
Proof. intros HP w. by repeat constructor. Qed.

Lemma log_all_sleep (P : call -> Prop) seconds :
  P (sleep_call seconds) -> log_all P (sleep seconds : comp unit).
Proof. intros HP w. by repeat constructor. Qed.

Lemma log_all_invoke {A} (P : call -> Prop) c (h : ext A) :
  P c -> log_all P (invoke c h : comp A).
Proof. intros HP w. rewrite emitted_invoke. by repeat constructor. Qed.

Lemma log_all_bind {A B} (P : call -> Prop) (m : comp A) (k : A -> comp B) :
  log_all P m -> (forall a, log_all P (k a)) -> log_all P (bind m k).
Proof.
  intros Hm Hk w. rewrite emitted_bind. apply Forall_app. split; [apply Hm|].
  destruct (res (m w)); [apply Hk|constructor].
Qed.

Lemma log_all_find_disable_profile (P : call -> Prop) profiles :
  log_all P (find_disable_profile profiles : comp string).
Proof. intros w. rewrite find_disable_profile_run. constructor. Qed.

Lemma log_all_get_disable_profile_id (P : call -> Prop) site_client :
  P get_port_profiles_call ->
  log_all P (_get_disable_profile_id site_client : comp string).
Proof.
  intros HP. apply log_all_bind; [by apply log_all_invoke|].
  intros profiles. apply log_all_find_disable_profile.
Qed.

Ltac log_all_steps side :=
  repeat first
    [ apply log_all_ret
    | apply log_all_print; side
    | apply log_all_sleep; side
    | apply log_all_invoke; side
    | apply log_all_get_disable_profile_id; side
    | apply log_all_bind; [|intros ?] ].

(** In every run, whatever the client answers, each port read and each
    update of either operation concerns the device and the port it was
    given, and each update carries either a profile id or overrides, never
    both and never neither. *)
Theorem operations_address_given_port site_client device port apply_schedule :
  log_all (addresses device port)
    (_enable_port_via_schedule site_client device port : comp bool) /\
  log_all (addresses device port)
    (_disable_port_via_schedule site_client device port apply_schedule
     : comp bool).
Proof.
  split.
  - unfold _enable_port_via_schedule. open_monad.
    apply log_all_bind; [by apply log_all_invoke|]. intros port_details.
    destruct (has_schedule port_details);
      log_all_steps ltac:(simpl; naive_solver).
  - unfold _disable_port_via_schedule. open_monad.
    apply log_all_bind; [by apply log_all_invoke|]. intros port_details.
    destruct (has_schedule port_details && apply_schedule);
      log_all_steps ltac:(simpl; naive_solver).
Qed.

(** The disable operation never waits, and neither does the enable
    operation on a port that has a schedule: the one-second sleep belongs
    to the profile cycle alone. *)
Theorem only_the_profile_cycle_sleeps
    site_client device port apply_schedule w0 :
  Forall (fun x => not_sleep (ev x))
    (emitted ((_disable_port_via_schedule site_client device port
                 apply_schedule : comp bool) w0)) /\
  (forall port_details w1,
     get_switch_port site_client device port w0 = (Ok port_details, w1) ->
     has_schedule port_details = true ->
     Forall (fun x => not_sleep (ev x))
       (emitted ((_enable_port_via_schedule site_client device port
                  : comp bool) w0))).
Proof.
  split.
  - revert w0. change (log_all not_sleep
      (_disable_port_via_schedule site_client device port apply_schedule
       : comp bool)).
    unfold _disable_port_via_schedule. open_monad.
    apply log_all_bind; [by apply log_all_invoke|]. intros port_details.
    destruct (has_schedule port_details && apply_schedule);
      log_all_steps ltac:(exact I).
  - intros port_details w1 Hread Hsched.
    unfold _enable_port_via_schedule. open_monad.
    rewrite (bind_invoke_ok _ _ _ _ _ _ Hread), Hsched.
    cbn [prepend emitted]. apply Forall_app. split; [by repeat constructor|].
    revert w1 Hread.
    match goal with
    | |- forall w1, _ -> Forall _ (emitted (?m w1)) =>
        intros w1 _; revert w1; change (log_all not_sleep m)
    end.
    log_all_steps ltac:(exact I).
Qed.

(** ** Every run of the operations *)

(** Case analysis on what the client answers, call by call. *)
Ltac answer_cases :=
  unfold _get_disable_profile_id; run;
  repeat
    (match goal with
     | |- context [bind (invoke _ ?h) _ ?w] =>
         destruct (h w) as [[?|?] ?] eqn:?
     | |- context [if has_schedule ?pd then _ else _] =>
         destruct (has_schedule pd) eqn:?
     | |- context [if has_schedule ?pd && ?b then _ else _] =>
         destruct (has_schedule pd && b) eqn:?
     | |- context [match disable_profile ?ps with _ => _ end] =>
         destruct (disable_profile ps) eqn:?
     end; run).

Lemma enable_call_bounds site_client device port w0 :
  let enabling : @run W OmadaDevice ControllerConfig bool :=
    _enable_port_via_schedule site_client device port w0 in
  (1 <= length (port_reads (emitted enabling)) <= 2)%nat /\
  (length (profile_lookups (emitted enabling)) <= 1)%nat /\
  (length (mutating_calls (emitted enabling)) <= 2)%nat.
Proof.
  intros enabling. subst enabling. unfold _enable_port_via_schedule.
  answer_cases; cbn; lia.
Qed.

Lemma disable_call_bounds site_client device port apply_schedule w0 :
  let disabling : @run W OmadaDevice ControllerConfig bool :=
    _disable_port_via_schedule site_client device port apply_schedule w0 in
  port_reads (emitted disabling) = [get_switch_port_call device port] /\
  (length (profile_lookups (emitted disabling)) <= 1)%nat /\
  (length (mutating_calls (emitted disabling)) <= 1)%nat.
Proof.
  intros disabling. subst disabling. unfold _disable_port_via_schedule.
  answer_cases; cbn; (split; [reflexivity|lia]).
Qed.

(** Whatever the client answers, the enable operation reads the port once
    or twice, looks the profiles up at most once and issues at most two
    mutating calls; the disable operation reads the port exactly once,
    looks the profiles up at most once and issues at most one mutating
    call. *)
Theorem operations_call_bounds site_client device port apply_schedule w0 :
  let enabling : @run W OmadaDevice ControllerConfig bool :=
    _enable_port_via_schedule site_client device port w0 in
  let disabling : @run W OmadaDevice ControllerConfig bool :=
    _disable_port_via_schedule site_client device port apply_schedule w0 in
  (1 <= length (port_reads (emitted enabling)) <= 2)%nat /\
  (length (profile_lookups (emitted enabling)) <= 1)%nat /\
  (length (mutating_calls (emitted enabling)) <= 2)%nat /\
  port_reads (emitted disabling) = [get_switch_port_call device port] /\
  (length (profile_lookups (emitted disabling)) <= 1)%nat /\
  (length (mutating_calls (emitted disabling)) <= 1)%nat.
Proof.
  intros enabling disabling.
  pose proof (enable_call_bounds site_client device port w0) as He.
  pose proof (disable_call_bounds site_client device port apply_schedule w0)
    as Hd.
  cbv zeta in He, Hd. subst enabling disabling. tauto.
Qed.

(** An exception of either operation has one of two origins.  Either a call
    of the client raised it, and that call is the last entry of the log; or
    it is the [ValueError] of the profile lookup, in which case no call
    raised and nothing was mutated. *)
Theorem operations_exception_origin
    site_client device port apply_schedule w0 e :
  let origin (r : @run W OmadaDevice ControllerConfig bool) : Prop :=
    (exists c, last (emitted r) = Some {| ev := c; raised := Some e |}) \/
    (e = ValueError "Could not find Disable profile" /\
     Forall (fun x => raised x = None) (emitted r) /\
     mutating_calls (emitted r) = []) in
  let enabling : @run W OmadaDevice ControllerConfig bool :=
    _enable_port_via_schedule site_client device port w0 in
  let disabling : @run W OmadaDevice ControllerConfig bool :=
    _disable_port_via_schedule site_client device port apply_schedule w0 in
  (res enabling = Raise e -> origin enabling) /\
  (res disabling = Raise e -> origin disabling).
Proof.
  intros origin enabling disabling. subst origin enabling disabling.
  cbv beta. split.
  - unfold _enable_port_via_schedule.
    answer_cases; cbn; intros [= <-];
      first [ left; eexists; reflexivity
            | right; split; [reflexivity|]; split;
              [by repeat constructor|reflexivity] ].
  - unfold _disable_port_via_schedule.
    answer_cases; cbn; intros [= <-];
      first [ left; eexists; reflexivity
            | right; split; [reflexivity|]; split;
              [by repeat constructor|reflexivity] ].
Qed.

(** When the first read of the disable operation raises, the operation
    raises the same exception and has done nothing else: no lookup, no
    mutation, no print. *)
Theorem disable_stops_at_failed_read
    site_client device port apply_schedule w0 w1 e :
  get_switch_port site_client device port w0 = (Raise e, w1) ->
  (_disable_port_via_schedule site_client device port apply_schedule
   : comp bool) w0
  = Run (Raise e) w1
      [{| ev := get_switch_port_call device port; raised := Some e |}].
Proof.
  intros Hread. unfold _disable_port_via_schedule. by run.
Qed.

(** On a port without a schedule whose profile already is the "Disable"
    profile, the enable cycle sets that same profile twice: the operation
    returns [True] and the port is left on the "Disable" profile. *)
Theorem enable_keeps_disable_profile
    site_client device port w0 w1 w2 w3 w4 w5
    port_details profiles disable refreshed_port :
  get_switch_port site_client device port w0 = (Ok port_details, w1) ->
  has_schedule port_details = false ->
  get_port_profiles site_client w1 = (Ok profiles, w2) ->
  disable_profile profiles = Some disable ->
  profile_id port_details = port_profile_id disable ->
  update_switch_port site_client device port
    (Some (port_profile_id disable)) None w2 = (Ok tt, w3) ->
  update_switch_port site_client device port
    (Some (port_profile_id disable)) None w3 = (Ok tt, w4) ->
  get_switch_port site_client device port w4 = (Ok refreshed_port, w5) ->
  let r : @run W OmadaDevice ControllerConfig bool :=
    _enable_port_via_schedule site_client device port w0 in
  res r = Ok true /\
  final r = w5 /\
  mutating_calls (emitted r)
  = [ update_switch_port_call device port (Some (port_profile_id disable)) None;
      update_switch_port_call device port (Some (port_profile_id disable)) None ] /\
  last (emitted r)
  = Some (entry_ok (print_call
            ("Port " ++ str_of_int port ++ " status: "
             ++ (if is_disabled refreshed_port then "disabled" else "enabled")))).
Proof.
  intros Hread Hsched Hprofiles Hdisable Hsame Hoff Hback Hreread r.
  subst r. unfold _enable_port_via_schedule. run. rewrite Hsched, Hsame.
  unfold _get_disable_profile_id. run. rewrite Hdisable. run.
  unfold ret. by destruct (is_disabled refreshed_port).
Qed.

(** ** The keys of the payload *)

(** The payload has a key exactly when it is one of the ten required
    settings, or one of the four optional ones and present in the raw data.
    No other raw field is forwarded, and the payload never has
    [scheduleEnable] or [profileId] of its own. *)
Theorem preserved_payload_keys port_details :
  (forall key,
     is_Some (_preserve_port_settings port_details !! key) <->
     In key required_settings \/
     (In key optional_settings /\ is_Some (_data port_details !! key))) /\
  _preserve_port_settings port_details !! "scheduleEnable" = None /\
  _preserve_port_settings port_details !! "profileId" = None.
Proof.
  split; [|by rewrite !preserve_port_settings_lookup].
  intros key. rewrite preserve_port_settings_lookup.
  unfold current_setting, required_settings, optional_settings.
  repeat case_decide; subst; cbn [In];
    try destruct (_data port_details !! "topoNotifyEnable");
    (split;
     [ intros Hsome;
       first [ by destruct Hsome
             | by (right; split; [tauto|])
             | left; tauto ]
     | intros [Hin|[Hin Hsome]];
       first [ assumption
             | by eexists
             | by destruct Hsome
             | exfalso; intuition congruence ] ]).
Qed.

(** ** Every run of the command *)

Lemma finally_raise_exit {A} (body : comp A) c (h : option exn -> ext unit)
    w e w1 t1 :
  body w = Run (Raise e) w1 t1 ->
  finally body (fun exc => invoke c (h exc)) w
  = Run (match (h (Some e) w1).1 with
         | Ok _ => Raise e
         | Raise e' => Raise e'
         end)
      (h (Some e) w1).2
      (t1 ++ [{| ev := c; raised := outcome (h (Some e) w1).1 |}]).
Proof.
  intros Hbody. unfold finally, invoke. rewrite Hbody; simpl.
  by destruct (h (Some e) w1) as [[[]|e'] w2].
Qed.

Lemma raises_either (r : result unit) (e : exn) :
  exists e', match r with Ok _ => Raise e | Raise e'' => Raise e'' end
             = (Raise e' : result Z).
Proof. destruct r; by eexists. Qed.

(** Either every step before the branch returned, or the command raised
    without a single read or update of a switch port. *)
Lemma command_setup_cases host args w0 :
  (exists connection site_client device port w7 t,
     reaches_branch host args w0 connection site_client device port w7 t) \/
  (port_reads (emitted (command_switch_port host args w0)) = [] /\
   mutating_calls (emitted (command_switch_port host args w0)) = [] /\
   exists e, res (command_switch_port host args w0) = Raise e).
Proof.
  unfold command_switch_port. open_monad.
  destruct (get_target_argument host args w0) as [[controller|e] w1] eqn:H1;
    run; [|right; by eauto].
  destruct (get_target_config host controller w1) as [[config|e] w2] eqn:H2;
    run; [|right; by eauto].
  destruct (to_omada_connection host config w2) as [[connection|e] w3] eqn:H3;
    run; [|right; by eauto].
  destruct (aenter connection w3) as [[client|e] w4] eqn:H4;
    run; [|right; by eauto].
  destruct (get_site_client client (site host config) w4)
    as [[site_client|e] w5] eqn:H5.
  2:{ right. rewrite (finally_raise_exit _ _ _ _ _ _ _
                        (bind_invoke_raise _ _ _ _ _ _ H5)).
      repeat split; try reflexivity. apply raises_either. }
  rewrite (finally_bind_invoke_ok _ _ _ _ _ _ _ H5).
  destruct (get_device_mac host site_client (arg_mac args) w5)
    as [[mac|e] w6] eqn:H6.
  2:{ right. rewrite (finally_raise_exit _ _ _ _ _ _ _
                        (bind_invoke_raise _ _ _ _ _ _ H6)).
      repeat split; try reflexivity. apply raises_either. }
  rewrite (finally_bind_invoke_ok _ _ _ _ _ _ _ H6).
  destruct (get_device site_client mac w6) as [[device|e] w7] eqn:H7.
  2:{ right. rewrite (finally_raise_exit _ _ _ _ _ _ _
                        (bind_invoke_raise _ _ _ _ _ _ H7)).
      repeat split; try reflexivity. apply raises_either. }
  rewrite (finally_bind_invoke_ok _ _ _ _ _ _ _ H7).
  destruct (py_int host (arg_port args)) as [port|e] eqn:Hport.
  2:{ right. rewrite (finally_raise_exit _ _ _ _ _ _ _
                        (bind_lift_raise _ _ _)).
      repeat split; try reflexivity. apply raises_either. }
  left. exists connection, site_client, device, port, w7. eexists.
  exists controller, config, client, mac, w1, w2, w3, w4, w5, w6.
  by repeat split.
Qed.

(** If the log of the command has a read or an update of a switch port,
    then every step before the branch had returned: the target was
    resolved, the connection opened, the device found and the port number
    parsed.  A failure of any of them leaves the switch untouched. *)
Theorem port_untouched_unless_setup_returns host args w0 :
  port_reads (emitted (command_switch_port host args w0)) <> [] \/
  mutating_calls (emitted (command_switch_port host args w0)) <> [] ->
  exists connection site_client device port w7 t,
    reaches_branch host args w0 connection site_client device port w7 t.
Proof.
  intros Htouched.
  destruct (command_setup_cases host args w0)
    as [Hsetup|(Hreads & Hupdates & _)]; [exact Hsetup|].
  destruct Htouched as [H|H]; contradiction.
Qed.

(** The port number is parsed only after the connection is open and the
    device found.  When [int] rejects it the command has made the seven
    calls before it, makes no call on the port, closes the connection and
    raises: the [ValueError] of [int], or the exception of the close if
    that raises too. *)
Theorem unparsable_port_fails_after_connecting
    host args w0 w1 w2 w3 w4 w5 w6 w7 w8
    controller config connection client site_client mac device e
    (answer : result unit) :
  get_target_argument host args w0 = (Ok controller, w1) ->
  get_target_config host controller w1 = (Ok config, w2) ->
  to_omada_connection host config w2 = (Ok connection, w3) ->
  aenter connection w3 = (Ok client, w4) ->
  get_site_client client (site host config) w4 = (Ok site_client, w5) ->
  get_device_mac host site_client (arg_mac args) w5 = (Ok mac, w6) ->
  get_device site_client mac w6 = (Ok device, w7) ->
  py_int host (arg_port args) = Raise e ->
  aexit connection (Some e) w7 = (answer, w8) ->
  command_switch_port host args w0
  = Run (match answer with Ok _ => Raise e | Raise e' => Raise e' end) w8
      [ entry_ok (get_target_argument_call args);
        entry_ok (get_target_config_call controller);
        entry_ok (to_omada_connection_call config);
        entry_ok connection_enter_call;
        entry_ok (get_site_client_call (site host config));
        entry_ok (get_device_mac_call (arg_mac args));
        entry_ok (get_device_call mac);
        {| ev := connection_exit_call; raised := outcome answer |} ].
Proof.
  intros H1 H2 H3 H4 H5 H6 H7 Hport Hexit.
  unfold command_switch_port. run.
  rewrite (finally_bind_invoke_ok _ _ _ _ _ _ _ H5).
  rewrite (finally_bind_invoke_ok _ _ _ _ _ _ _ H6).
  rewrite (finally_bind_invoke_ok _ _ _ _ _ _ _ H7).
  rewrite Hport.
  rewrite (finally_raise_exit _ _ _ _ _ _ _ (bind_lift_raise _ _ _)).
  by rewrite Hexit.
Qed.

Lemma log_all_lift {A} (P : call -> Prop) (r : result A) :
  log_all P (lift r : comp A).
Proof. intros w. constructor. Qed.

Lemma command_body_never_exits host client config args :
  log_all (fun c => is_connection_exit c = false)
    (bind (invoke (get_site_client_call (site host config))
             (get_site_client client (site host config)))
       (fun site_client =>
          bind (invoke (get_device_mac_call (arg_mac args))
                  (get_device_mac host site_client (arg_mac args)))
            (fun mac =>
               bind (invoke (get_device_call mac) (get_device site_client mac))
                 (fun device =>
                    bind (lift (py_int host (arg_port args)))
                      (fun port =>
                         toggle_and_dump host site_client device port args))))
     : comp Z).
Proof.
  unfold toggle_and_dump, toggle_branch, _enable_port_via_schedule,
    _disable_port_via_schedule. open_monad.
  do 3 (apply log_all_bind; [by apply log_all_invoke|intros ?]).
  apply log_all_bind; [apply log_all_lift|intros port].
  apply log_all_bind; [|intros _; apply log_all_bind; [|intros _]].
  - destruct (arg_enable args); [|destruct (arg_disable args)].
    + apply log_all_bind; [|intros ?; apply log_all_ret].
      apply log_all_bind; [by apply log_all_invoke|]. intros port_details.
      destruct (has_schedule port_details);
        log_all_steps ltac:(reflexivity).
    + apply log_all_bind; [|intros ?; apply log_all_ret].
      apply log_all_bind; [by apply log_all_invoke|]. intros port_details.
      destruct (has_schedule port_details && arg_apply_schedule args);
        log_all_steps ltac:(reflexivity).
    + apply log_all_ret.
  - destruct (arg_dump args); log_all_steps ltac:(reflexivity).
  - apply log_all_ret.
Qed.

Lemma connection_exits_none t :
  Forall (fun x => is_connection_exit (ev x) = false) t ->
  connection_exits t = [].
Proof.
  unfold connection_exits. induction 1 as [|x t Hx _ IH]; [reflexivity|].
  simpl. by rewrite Hx.
Qed.

Lemma connection_exits_app t1 t2 :
  connection_exits (t1 ++ t2)
  = (connection_exits t1 ++ connection_exits t2)%list.
Proof. unfold connection_exits. by rewrite map_app, List.filter_app. Qed.

(** The connection is closed exactly when it was opened.  In every run
    whose log shows the connection entered, the close is logged once and is
    the last entry, whatever failed in between; in every other run no close
    is logged. *)
Theorem connection_closed_exactly_when_opened host args w0 :
  let r := command_switch_port host args w0 in
  connection_exits (emitted r)
  = (if entered (emitted r) then [connection_exit_call] else []) /\
  (entered (emitted r) = true ->
   exists o, last (emitted r)
             = Some {| ev := connection_exit_call; raised := o |}).
Proof.
  intros r. subst r. unfold command_switch_port. open_monad.
  destruct (get_target_argument host args w0) as [[controller|e] w1] eqn:H1;
    run; [|by split].
  destruct (get_target_config host controller w1) as [[config|e] w2] eqn:H2;
    run; [|by split].
  destruct (to_omada_connection host config w2) as [[connection|e] w3] eqn:H3;
    run; [|by split].
  destruct (aenter connection w3) as [[client|e] w4] eqn:H4;
    run; [|by split].
  pose proof (command_body_never_exits host client config args w4) as Hbody.
  unfold toggle_and_dump, toggle_branch in Hbody. open_monad.
  cbn [prepend emitted]. rewrite emitted_finally, emitted_invoke.
  set (body := emitted _) in *.
  split.
  - rewrite !connection_exits_app, (connection_exits_none _ Hbody).
    unfold entered. rewrite !existsb_app. reflexivity.
  - intros _. eexists. rewrite !app_assoc. apply last_snoc.
Qed.

Lemma reaches_branch_silent
    host args w0 connection site_client device port w7 t :
  reaches_branch host args w0 connection site_client device port w7 t ->
  port_reads t = [] /\ mutating_calls t = [].
Proof.
  intros (controller & config & client & mac & w1 & w2 & w3 & w4 & w5 & w6
          & _ & _ & _ & _ & _ & _ & _ & _ & ->).
  by split.
Qed.

Lemma command_log_reaches
    host args w0 connection site_client device port w7 t :
  reaches_branch host args w0 connection site_client device port w7 t ->
  exists o,
    emitted (command_switch_port host args w0)
    = (t ++ emitted (toggle_and_dump host site_client device port args w7)
         ++ [{| ev := connection_exit_call; raised := o |}])%list.
Proof.
  intros Hsetup. rewrite (command_reaches _ _ _ _ _ _ _ _ _ Hsetup).
  cbn [prepend emitted]. rewrite emitted_finally, emitted_invoke. by eexists.
Qed.

Lemma toggle_and_dump_log host site_client device port args w :
  mutating_calls (emitted (toggle_and_dump host site_client device port args w))
  = mutating_calls (emitted (toggle_branch (ControllerConfig := ControllerConfig)
                               site_client device port args w)) /\
  exists extra,
    port_reads (emitted (toggle_and_dump host site_client device port args w))
    = (port_reads (emitted (toggle_branch (ControllerConfig := ControllerConfig)
                              site_client device port args w)) ++ extra)%list /\
    (length extra <= 1)%nat.
Proof.
  unfold toggle_and_dump. open_monad.
  rewrite emitted_bind, mutating_calls_app, port_reads_app.
  destruct (res (toggle_branch site_client device port args w)) as [[]|e].
  2:{ split; [by rewrite app_nil_r|]. exists []. split; [reflexivity|simpl; lia]. }
  destruct (arg_dump args).
  - rewrite dump_steps_mutate_nothing by reflexivity.
    rewrite dump_steps_read_once.
    split; [by rewrite app_nil_r|]. eexists. split; [reflexivity|simpl; lia].
  - rewrite bind_ret. split; [by rewrite app_nil_r|].
    exists []. split; [reflexivity|simpl; lia].
Qed.

Lemma toggle_branch_bounds site_client device port args w :
  let r : @run W OmadaDevice ControllerConfig unit :=
    toggle_branch site_client device port args w in
  (length (mutating_calls (emitted r)) <= 2)%nat /\
  (length (port_reads (emitted r)) <= 2)%nat.
Proof.
  intros r. subst r. unfold toggle_branch. open_monad.
  destruct (arg_enable args); [|destruct (arg_disable args)].
  - pose proof (enable_call_bounds site_client device port w) as H.
    cbv zeta in H. rewrite emitted_bind.
    destruct (res _); cbn [ret emitted]; rewrite app_nil_r; lia.
  - pose proof (disable_call_bounds site_client device port
                  (arg_apply_schedule args) w) as (Hr & _ & Hm).
    rewrite emitted_bind.
    destruct (res _); cbn [ret emitted]; rewrite app_nil_r;
      (split; [lia|rewrite Hr; simpl; lia]).
  - simpl. lia.
Qed.

(** In every run, whatever the client and the helpers answer, the command
    issues at most two mutating calls and at most three reads of the
    port. *)
Theorem command_call_bounds host args w0 :
  (length (mutating_calls (emitted (command_switch_port host args w0))) <= 2)%nat /\
  (length (port_reads (emitted (command_switch_port host args w0))) <= 3)%nat.
Proof.
  destruct (command_setup_cases host args w0)
    as [(connection & site_client & device & port & w7 & t & Hsetup)
       |(-> & -> & _)]; [|simpl; lia].
  destruct (command_log_reaches _ _ _ _ _ _ _ _ _ Hsetup) as (o & ->).
  destruct (reaches_branch_silent _ _ _ _ _ _ _ _ _ Hsetup) as (Hreads & Hupdates).
  destruct (toggle_and_dump_log host site_client device port args w7)
    as (Hm & extra & Hr & Hextra).
  pose proof (toggle_branch_bounds site_client device port args w7) as Hb.
  cbv zeta in Hb.
  rewrite !mutating_calls_app, !port_reads_app, Hreads, Hupdates, Hm, Hr.
  cbn [app]. rewrite !length_app. simpl. lia.
Qed.

(** Called with neither flag, which the parser rules out but the function
    accepts, the command mutates nothing in any run, and reads the port at
    most once, for the dump. *)
Theorem no_flag_no_mutation host args w0 :
  arg_enable args = false ->
  arg_disable args = false ->
  mutating_calls (emitted (command_switch_port host args w0)) = [] /\
  (length (port_reads (emitted (command_switch_port host args w0))) <= 1)%nat.
Proof.
  intros Henable Hdisable.
  destruct (command_setup_cases host args w0)
    as [(connection & site_client & device & port & w7 & t & Hsetup)
       |(-> & -> & _)]; [|split; [reflexivity|simpl; lia]].
  destruct (command_log_reaches _ _ _ _ _ _ _ _ _ Hsetup) as (o & ->).
  destruct (reaches_branch_silent _ _ _ _ _ _ _ _ _ Hsetup) as (Hreads & Hupdates).
  destruct (toggle_and_dump_log host site_client device port args w7)
    as (Hm & extra & Hr & Hextra).
  rewrite !mutating_calls_app, !port_reads_app, Hreads, Hupdates, Hm, Hr.
  unfold toggle_branch. rewrite Henable, Hdisable.
  cbn [ret emitted app]. rewrite !length_app. simpl. split; [reflexivity|lia].
Qed.

End Properties.

(** * The procedure on the test double *)

(** The scenario of the specification: port 3 of [AA:BB:CC:DD:EE:FF], no
    schedule, "Disable" is [p-1], the port is on [p-default]. *)
Lemma enable_without_schedule_scenario :
  enable_on_test_double (test_controller false 5)
  = Run (Ok true) (test_controller false 0)
      (map entry_ok
         [ get_switch_port_call test_device 3;
           get_port_profiles_call;
           update_switch_port_call test_device 3 (Some "p-1") None;
           print_call "Port 3 temporarily disabled";
           sleep_call 1;
           update_switch_port_call test_device 3 (Some "p-default") None;
           print_call "Port 3 re-enabled with original profile";
           get_switch_port_call test_device 3;
           print_call "Port 3 status: enabled" ]).
Proof.
  refine (proj1 (enable_without_schedule_cycles_profile
                   test_site_client test_device 3 (test_controller false 5)
                   _ _ _ _ _ _ _ _ _
                   eq_refl eq_refl eq_refl eq_refl eq_refl eq_refl eq_refl)).
Defined.

(** Enabling the port of the test double when it has a schedule. *)
Lemma enable_with_schedule_scenario :
  mutating_calls (emitted (enable_on_test_double (test_controller true 5)))
  = [ update_switch_port_call test_device 3 None (Some (test_payload false)) ] /\
  profile_lookups (emitted (enable_on_test_double (test_controller true 5)))
  = [] /\
  test_payload false !! "scheduleEnable" = Some (JBool false) /\
  (forall key, key <> "scheduleEnable" ->
     test_payload false !! key
     = current_setting (port_view (test_controller true 0)) key).
Proof.
  exact (proj2 (enable_with_schedule_single_override
                 test_site_client test_device 3 (test_controller true 5)
                 _ _ _ _ eq_refl eq_refl eq_refl)).
Defined.

(** Disabling it through its schedule. *)
Lemma disable_with_schedule_scenario :
  mutating_calls (emitted (disable_on_test_double true (test_controller true 5)))
  = [ update_switch_port_call test_device 3 None (Some (test_payload true)) ] /\
  profile_lookups (emitted (disable_on_test_double true (test_controller true 5)))
  = [] /\
  test_payload true !! "scheduleEnable" = Some (JBool true) /\
  (forall key, key <> "scheduleEnable" ->
     test_payload true !! key
     = current_setting (port_view (test_controller true 0)) key).
Proof.
  exact (proj2 (disable_with_schedule_single_override
                 test_site_client test_device 3 (test_controller true 5)
                 _ _ _ _ eq_refl eq_refl eq_refl)).
Defined.

(** Disabling it through the profile although it has a schedule. *)
Lemma disable_via_profile_scenario :
  mutating_calls (emitted (disable_on_test_double false (test_controller true 5)))
  = [ update_switch_port_call test_device 3 (Some "p-1") None ].
Proof.
  exact (proj2 (disable_via_profile_single_update
                 test_site_client test_device 3 false (test_controller true 5)
                 _ _ _ _ _ _ _
                 eq_refl (or_introl eq_refl) eq_refl eq_refl eq_refl)).
Defined.

(** A site with two profiles named "Disable". *)
Lemma two_disable_profiles_scenario :
  exists before first after,
    site_profiles (controller_two_disable 5) = (before ++ first :: after)%list /\
    name first = "Disable" /\
    (forall earlier, In earlier before -> name earlier <> "Disable") /\
    _get_disable_profile_id (ControllerConfig := string) test_site_client
      (controller_two_disable 5)
    = Run (Ok (port_profile_id first)) (controller_two_disable 4)
        [entry_ok get_port_profiles_call].
Proof.
  exact (disable_lookup_returns_first_match
           test_site_client (controller_two_disable 5) _ _
           {| name := "Disable"; port_profile_id := "p-2" |}
           eq_refl (or_intror (or_intror (or_introl eq_refl))) eq_refl).
Defined.

Example two_disable_profiles_first_id :
  res (_get_disable_profile_id (ControllerConfig := string) test_site_client
         (controller_two_disable 5)) = Ok "p-1".
Proof. reflexivity. Qed.

(** A site without a profile named "Disable". *)
Lemma missing_disable_profile_scenario :
  let aborted : run bool :=
    Run (Raise (ValueError "Could not find Disable profile"))
      (controller_without_disable 3)
      [ entry_ok (get_switch_port_call test_device 3);
        entry_ok get_port_profiles_call ] in
  enable_on_test_double (controller_without_disable 5) = aborted /\
  disable_on_test_double false (controller_without_disable 5) = aborted /\
  mutating_calls (emitted aborted) = [].
Proof.
  pose proof (missing_disable_profile_aborts (ControllerConfig := string)
                test_site_client test_device 3 false
                (controller_without_disable 5) _ _ _ _ eq_refl eq_refl)
    as (Hlookup & Henable & Hdisable & Hnone).
  assert (Hmissing : forall profile,
             In profile (site_profiles (controller_without_disable 4)) ->
             name profile <> "Disable").
  { intros profile [<-|[<-|[]]]; discriminate. }
  split; [|split].
  - exact (Henable Hmissing eq_refl).
  - exact (Hdisable Hmissing (or_introl eq_refl)).
  - exact Hnone.
Defined.

(** The link is down from the start, or drops during the cycle. *)
Lemma failed_first_read_scenario :
  enable_on_test_double (test_controller false 0)
  = Run (Raise link_down) (test_controller false 0)
      [{| ev := get_switch_port_call test_device 3; raised := Some link_down |}] /\
  (exists disable_profile_id,
     mutating_calls (emitted (enable_on_test_double (test_controller false 3)))
     `prefix_of`
     [ update_switch_port_call test_device 3 (Some disable_profile_id) None;
       update_switch_port_call test_device 3 (Some "p-default") None ]).
Proof.
  split.
  - exact (proj1 (original_profile_captured_before_mutation
                    (ControllerConfig := string) test_site_client test_device 3 (test_controller false 0))
             link_down _ eq_refl).
  - exact (proj1 (proj2 (original_profile_captured_before_mutation
                           (ControllerConfig := string) test_site_client test_device 3
                           (test_controller false 3)))
             _ _ eq_refl eq_refl).
Defined.

(** The link drops between the two updates of the enable cycle: the port
    stays on the "Disable" profile. *)
Lemma failed_restore_scenario :
  let r := enable_on_test_double (test_controller false 3) in
  res r = Raise link_down /\
  port_profile (final r) = "p-1" /\
  applied_updates (emitted r)
  = [ update_switch_port_call test_device 3 (Some "p-1") None ] /\
  List.last (emitted r) (entry_ok get_port_profiles_call)
  = {| ev := update_switch_port_call test_device 3 (Some "p-default") None;
       raised := Some link_down |}.
Proof.
  destruct (proj2 (proj2 (client_failures_propagate
                            (ControllerConfig := string) test_site_client test_device 3 false))
              (test_controller false 3) _ _ _ _ _ _ _ link_down
              eq_refl eq_refl eq_refl eq_refl eq_refl eq_refl)
    as [Hr Happlied].
  cbv zeta in Hr, Happlied |- *. fold enable_on_test_double in Hr, Happlied.
  split; [by rewrite Hr|]. split; [by rewrite Hr|].
  split; [exact Happlied|by rewrite Hr].
Defined.

(** The steps before the branch on the test double; only [get_device] goes
    over the link. *)
Lemma test_double_reaches_branch args link :
  arg_port args = "3" ->
  reaches_branch test_host args (test_controller true (S link))
    test_connection test_site_client (arg_mac args) 3
    (test_controller true link)
    (map entry_ok
       [ get_target_argument_call args;
         get_target_config_call (arg_target args);
         to_omada_connection_call (arg_target args);
         connection_enter_call;
         get_site_client_call (arg_target args);
         get_device_mac_call (arg_mac args);
         get_device_call (arg_mac args) ]).
Proof.
  intros Hport. unfold reaches_branch.
  eexists _, _, _, _, _, _, _, _, _, _.
  repeat (split; [reflexivity|]).
  split; [by simpl; rewrite Hport|reflexivity].
Qed.

(** The whole command, enabling with a dump. *)
Lemma command_with_dump_scenario :
  let r := command_on_test_double (test_args true false true)
             (test_controller true 4) in
  res r = Ok 0 /\
  mutating_calls (emitted r)
  = [ update_switch_port_call test_device 3 None (Some (test_payload false)) ] /\
  port_reads (emitted r)
  = [ get_switch_port_call test_device 3; get_switch_port_call test_device 3 ].
Proof.
  destruct (command_returns_zero test_host (test_args true false true)
              (test_controller true 4) test_connection test_site_client
              test_device 3 (test_controller true 3) _ _ _ _ _ _
              (test_double_reaches_branch (test_args true false true) 3 eq_refl)
              eq_refl
              (or_intror (conj eq_refl
                 (ex_intro _ _ (ex_intro _ _
                    (conj eq_refl (conj eq_refl eq_refl))))))
              eq_refl)
    as [Hr _].
  cbv zeta. unfold command_on_test_double. rewrite Hr.
  split; [reflexivity|]. split; reflexivity.
Defined.

(** The branch returns and the read for the dump raises: the command does
    not return 0. *)
Lemma dump_read_failure_counterexample :
  ~ exit_zero_once_branch_returns Controller string string.
Proof.
  intros Hclaim.
  assert (Hzero : res (command_switch_port test_host (test_args true false true)
                         (test_controller true 3)) = Ok 0).
  { eapply Hclaim.
    - exact (test_double_reaches_branch (test_args true false true) 2 eq_refl).
    - left. reflexivity.
    - reflexivity. }
  discriminate Hzero.
Qed.

Example dump_read_failure_run :
  res (command_on_test_double (test_args true false true) (test_controller true 3))
  = Raise link_down /\
  res (toggle_branch (ControllerConfig := string) test_site_client test_device 3
         (test_args true false true) (test_controller true 2))
  = Ok tt.
Proof. split; reflexivity. Qed.

(** The same invocation with and without the dump flag. *)
Lemma dump_flag_scenario :
  let dumping := command_on_test_double (with_dump true (test_args true false false))
                   (test_controller true 4) in
  let plain := command_on_test_double (with_dump false (test_args true false false))
                 (test_controller true 4) in
  mutating_calls (emitted dumping) = mutating_calls (emitted plain) /\
  port_reads (emitted plain) = [ get_switch_port_call test_device 3 ] /\
  port_reads (emitted dumping)
  = [ get_switch_port_call test_device 3; get_switch_port_call test_device 3 ].
Proof.
  edestruct (dump_flag_adds_one_read test_host (test_args true false false)
               (test_controller true 4) test_connection test_site_client
               test_device 3 (test_controller true 3))
    as [Hsame Hreads]; [reflexivity|].
  destruct (Hreads (test_double_reaches_branch
                      (with_dump false (test_args true false false)) 3 eq_refl)
              eq_refl) as [Hplain Hdumping].
  cbv zeta. unfold command_on_test_double.
  split; [exact Hsame|]. split; [exact Hplain|].
  rewrite Hdumping, Hplain. reflexivity.
Defined.

(** * Further runs on the test double *)

(** Enabling through the schedule does not wait. *)
Lemma scheduled_enable_does_not_sleep :
  Forall (fun x => not_sleep (ev x))
    (emitted (enable_on_test_double (test_controller true 5))).
Proof.
  exact (proj2 (only_the_profile_cycle_sleeps (ControllerConfig := string)
                  test_site_client test_device 3 false (test_controller true 5))
           _ _ eq_refl eq_refl).
Defined.

(** The link drops at the restoring update; a site without "Disable". *)
Lemma exception_origin_scenarios :
  ((exists c, last (emitted (enable_on_test_double (test_controller false 3)))
              = Some {| ev := c; raised := Some link_down |}) \/
   (link_down = ValueError "Could not find Disable profile" /\
    Forall (fun x => raised x = None)
      (emitted (enable_on_test_double (test_controller false 3))) /\
    mutating_calls (emitted (enable_on_test_double (test_controller false 3)))
    = [])) /\
  ((exists c,
      last (emitted (disable_on_test_double false (controller_without_disable 5)))
      = Some {| ev := c;
                raised := Some (ValueError "Could not find Disable profile") |}) \/
   (ValueError "Could not find Disable profile"
    = ValueError "Could not find Disable profile" /\
    Forall (fun x => raised x = None)
      (emitted (disable_on_test_double false (controller_without_disable 5))) /\
    mutating_calls
      (emitted (disable_on_test_double false (controller_without_disable 5)))
    = [])).
Proof.
  split.
  - exact (proj1 (operations_exception_origin (ControllerConfig := string)
                    test_site_client test_device 3 false
                    (test_controller false 3) link_down) eq_refl).
  - exact (proj2 (operations_exception_origin (ControllerConfig := string)
                    test_site_client test_device 3 false
                    (controller_without_disable 5)
                    (ValueError "Could not find Disable profile")) eq_refl).
Defined.

(** Disabling with the link down. *)
Lemma disable_with_link_down :
  disable_on_test_double true (test_controller true 0)
  = Run (Raise link_down) (test_controller true 0)
      [{| ev := get_switch_port_call test_device 3; raised := Some link_down |}].
Proof.
  exact (disable_stops_at_failed_read (ControllerConfig := string)
           test_site_client test_device 3 true (test_controller true 0) _ _
           eq_refl).
Defined.

(** A run that updates the port went through every step before the
    branch. *)
Lemma touched_port_scenario :
  exists connection site_client device port w7 t,
    reaches_branch test_host (test_args true false false)
      (test_controller true 4) connection site_client device port w7 t.
Proof.
  apply (port_untouched_unless_setup_returns test_host
           (test_args true false false) (test_controller true 4)).
  right. discriminate.
Defined.

(** A port that is not a number. *)
Lemma unparsable_port_scenario :
  command_on_test_double unparsable_port_args (test_controller true 4)
  = Run (Raise (ValueError "invalid literal for int()")) (test_controller true 3)
      [ entry_ok (get_target_argument_call unparsable_port_args);
        entry_ok (get_target_config_call "home");
        entry_ok (to_omada_connection_call "home");
        entry_ok connection_enter_call;
        entry_ok (get_site_client_call "home");
        entry_ok (get_device_mac_call test_device);
        entry_ok (get_device_call test_device);
        entry_ok connection_exit_call ].
Proof.
  exact (unparsable_port_fails_after_connecting test_host unparsable_port_args
           (test_controller true 4) _ _ _ _ _ _ _ _ _ _ _ _ _ _ _ _ _
           eq_refl eq_refl eq_refl eq_refl eq_refl eq_refl eq_refl eq_refl
           eq_refl).
Defined.

(** The link drops during the branch: the connection is closed all the
    same, and the close is the last entry. *)
Lemma connection_closed_scenario :
  exists o,
    last (emitted (command_on_test_double (test_args true false false)
                     (test_controller true 2)))
    = Some {| ev := connection_exit_call; raised := o |}.
Proof.
  exact (proj2 (connection_closed_exactly_when_opened test_host
                  (test_args true false false) (test_controller true 2))
           eq_refl).
Defined.

(** Neither [--enable] nor [--disable]. *)
Lemma no_flag_scenario :
  mutating_calls (emitted (command_on_test_double no_flag_args
                             (test_controller true 4))) = [] /\
  (length (port_reads (emitted (command_on_test_double no_flag_args
                                  (test_controller true 4)))) <= 1)%nat.
Proof.
  exact (no_flag_no_mutation test_host no_flag_args (test_controller true 4)
           eq_refl eq_refl).
Defined.

(** Enabling a port that sits on the "Disable" profile. *)
Lemma enable_on_disable_profile_scenario :
  let r := enable_on_test_double (controller_on_disable 5) in
  res r = Ok true /\
  final r = controller_on_disable 0 /\
  mutating_calls (emitted r)
  = [ update_switch_port_call test_device 3 (Some "p-1") None;
      update_switch_port_call test_device 3 (Some "p-1") None ] /\
  last (emitted r) = Some (entry_ok (print_call "Port 3 status: disabled")).
Proof.
  exact (enable_keeps_disable_profile (ControllerConfig := string)
           test_site_client test_device 3 (controller_on_disable 5)
           _ _ _ _ _ _ _ _ _
           eq_refl eq_refl eq_refl eq_refl eq_refl eq_refl eq_refl eq_refl).
Defined.
